(** * Tool pipeline of the chat assistant: Summarize-URL and Translate-Text

    A shallow embedding of [lib/ai/tools/summarize-url.ts] and
    [lib/ai/tools/translate-text.ts].

    - A JavaScript string is the list of its UTF-16 code units, which is what
      [length], [substring], [trim], [includes] and [===] work on.
    - [await fetch(..)] and [await generateText(..)] are the two outbound
      calls.  A tool body is a finite tree of such calls ([Tool]); running it
      against an environment that settles every call gives the tool's result
      and the list of calls made, in order.
    - [try]/[catch] is modelled by the settled value of each awaited promise:
      resolved with a value, or rejected with a thrown value. *)

From Stdlib Require Import List Bool Arith NArith Lia String Ascii DecimalString.
Import ListNotations.

Set Implicit Arguments.

(* ================================================================== *)
(** ** JavaScript strings *)

Module Js.

(** One UTF-16 code unit. *)
Definition unit16 := N.

Definition jsstring := list unit16.

(** A literal of the source, written with ASCII characters only. *)
Definition lit (s : string) : jsstring :=
  map N_of_ascii (list_ascii_of_string s).

(** [a === b] on strings. *)
Fixpoint str_eqb (a b : jsstring) : bool :=
  match a, b with
  | [], [] => true
  | x :: a', y :: b' => N.eqb x y && str_eqb a' b'
  | _, _ => false
  end.

(** WhiteSpace and LineTerminator of ECMAScript: the code units removed by
    [String.prototype.trim]. *)
Definition isWhiteSpace (c : unit16) : bool :=
  (N.leb 9 c && N.leb c 13)              (* TAB LF VT FF CR *)
  || N.eqb c 32                          (* SPACE *)
  || N.eqb c 160                         (* NO-BREAK SPACE *)
  || N.eqb c 5760                        (* OGHAM SPACE MARK *)
  || (N.leb 8192 c && N.leb c 8202)      (* EN QUAD .. HAIR SPACE *)
  || N.eqb c 8232 || N.eqb c 8233        (* LINE / PARAGRAPH SEPARATOR *)
  || N.eqb c 8239 || N.eqb c 8287        (* NARROW NBSP, MEDIUM MATH SPACE *)
  || N.eqb c 12288                       (* IDEOGRAPHIC SPACE *)
  || N.eqb c 65279.                      (* ZERO WIDTH NO-BREAK SPACE *)

Fixpoint trimStart (s : jsstring) : jsstring :=
  match s with
  | c :: s' => if isWhiteSpace c then trimStart s' else s
  | [] => []
  end.

Fixpoint trimEnd (s : jsstring) : jsstring :=
  match s with
  | c :: s' =>
      match trimEnd s' with
      | [] => if isWhiteSpace c then [] else [c]
      | t => c :: t
      end
  | [] => []
  end.

(** [s.trim()] *)
Definition trim (s : jsstring) : jsstring := trimEnd (trimStart s).

(** A string is blank when it is empty or made of white space only. *)
Definition blank (s : jsstring) : bool := forallb isWhiteSpace s.

(** [s.startsWith(p)] *)
Fixpoint startsWith (s p : jsstring) : bool :=
  match p, s with
  | [], _ => true
  | x :: p', y :: s' => N.eqb x y && startsWith s' p'
  | _ :: _, [] => false
  end.

(** [s.includes(p)] *)
Fixpoint includes (s p : jsstring) : bool :=
  startsWith s p ||
  match s with
  | [] => false
  | _ :: s' => includes s' p
  end.

(** [s.substring(0, n)] *)
Definition substring0 (n : nat) (s : jsstring) : jsstring := firstn n s.

(** Truthiness of a string: every string but the empty one. *)
Definition truthy (s : jsstring) : bool :=
  match s with [] => false | _ :: _ => true end.

(** Number-to-string of a non-negative integer, as a template literal
    interpolates [response.status]. *)
Definition numberToString (n : N) : jsstring :=
  lit (NilZero.string_of_uint (N.to_uint n)).

(** Lower-casing of the letters A..Z.  [String.prototype.toLowerCase] does this
    on a string of ASCII code units; the tool itself is stated over any
    lower-casing function (see [TranslateText]). *)
Definition asciiToLowerCase (s : jsstring) : jsstring :=
  map (fun c => if N.leb 65 c && N.leb c 90 then N.add c 32 else c) s.

End Js.

Import Js.

Declare Scope js_scope.
Delimit Scope js_scope with js.
Notation "a +++ b" := (@List.app unit16 a b) (at level 60, right associativity) : js_scope.
Local Open Scope js_scope.

(* ================================================================== *)
(** ** Awaited calls: promises, exceptions and the call log *)

(** What a [catch (error)] clause can see of the thrown value: whether it is
    an [Error] instance, and then its [message]. *)
Inductive Thrown : Type :=
| ThrownError (message : jsstring)
| ThrownOther.

(** A settled promise. *)
Inductive Settled (A : Type) : Type :=
| Resolved (value : A)
| Rejected (reason : Thrown).

Arguments Resolved {A} value.
Arguments Rejected {A} reason.

(** The part of a fetch [Response] that the tool reads: [ok], [status],
    the promise returned by [text()], and [headers.get('content-type')]
    ([None] is [null]). *)
Record Response : Type := mkResponse {
  ok : bool;
  status : N;
  text : Settled jsstring;
  contentType : option jsstring
}.

(** What [generateText] resolves with: a bare string, or an object whose
    [text] and [finishReason] properties may be missing ([None] is
    [undefined]). *)
Inductive GenerateTextResult : Type :=
| GenString (s : jsstring)
| GenObject (text : option jsstring) (finishReason : option jsstring).

(** [typeof r === 'string' ? r : r.text] reads [r.text] of an object;
    a string primitive has no [text] property. *)
Definition result_text (r : GenerateTextResult) : option jsstring :=
  match r with
  | GenString _ => None
  | GenObject t _ => t
  end.

Definition result_finishReason (r : GenerateTextResult) : option jsstring :=
  match r with
  | GenString _ => None
  | GenObject _ f => f
  end.

(** A possibly [undefined] string interpolated into a template literal;
    [undefined] prints as the word itself. *)
Definition interpolate (v : option jsstring) : jsstring :=
  match v with
  | Some s => s
  | None => lit "undefined"
  end.

(** The same for a string that may be [null]. *)
Definition interpolateNullable (v : option jsstring) : jsstring :=
  match v with
  | Some s => s
  | None => lit "null"
  end.

(** An async tool body: it returns, or awaits one of the two outbound calls
    and continues with the settled promise.  [generateText] is always called
    with the model constant [DEFAULT_CHAT_MODEL]; only the prompt varies. *)
Inductive Tool (R : Type) : Type :=
| Return (r : R)
| AwaitFetch (url : jsstring) (k : Settled Response -> Tool R)
| AwaitGenerateText (prompt : jsstring) (k : Settled GenerateTextResult -> Tool R).

Arguments Return {R} r.
Arguments AwaitFetch {R} url k.
Arguments AwaitGenerateText {R} prompt k.

(** The outbound calls, as a mock records them. *)
Inductive Call : Type :=
| CallFetch (url : jsstring)
| CallGenerateText (prompt : jsstring).

(** The outside world: how each call settles. *)
Record Env : Type := mkEnv {
  fetch : jsstring -> Settled Response;
  generateText : jsstring -> Settled GenerateTextResult
}.

(** Run a tool body to completion: its result and the calls it made. *)
Fixpoint run {R : Type} (env : Env) (t : Tool R) : R * list Call :=
  match t with
  | Return r => (r, [])
  | AwaitFetch url k =>
      let (r, calls) := run env (k (fetch env url)) in
      (r, CallFetch url :: calls)
  | AwaitGenerateText prompt k =>
      let (r, calls) := run env (k (generateText env prompt)) in
      (r, CallGenerateText prompt :: calls)
  end.

Definition isGenerateText (c : Call) : bool :=
  match c with
  | CallGenerateText _ => true
  | CallFetch _ => false
  end.

(** [expect(generateText).not.toHaveBeenCalled()] *)
Definition modelNeverInvoked (calls : list Call) : bool :=
  negb (existsb isGenerateText calls).

(** The prompts [generateText] was called with, in order. *)
Fixpoint promptsSent (calls : list Call) : list jsstring :=
  match calls with
  | [] => []
  | CallGenerateText p :: cs => p :: promptsSent cs
  | CallFetch _ :: cs => promptsSent cs
  end.

(* ================================================================== *)
(** ** summarize-url.ts *)

Module SummarizeUrl.

(** [html.replace(/<[^>]*>?/gm, '')].  A match starts at a ['<'], takes the
    code units that follow up to the next ['>'] (the greedy class cannot
    cross one) and that ['>'] when there is one; without any ['>'] it runs
    to the end of the string.  [inTag] tells whether a match is open. *)
Fixpoint stripFrom (inTag : bool) (html : jsstring) : jsstring :=
  match html with
  | [] => []
  | c :: rest =>
      if inTag then
        if N.eqb c 62 (* > *) then stripFrom false rest else stripFrom true rest
      else
        if N.eqb c 60 (* < *) then stripFrom true rest else c :: stripFrom false rest
  end.

Definition stripHtmlTags (html : jsstring) : jsstring := stripFrom false html.

(** [{ summary?: string; error?: string }] *)
Record Result : Type := mkResult {
  summary : option jsstring;
  error : option jsstring
}.

Definition failure (message : jsstring) : Result :=
  {| summary := None; error := Some message |}.

Definition httpStatusError (code : N) : jsstring :=
  lit "Failed to fetch page: HTTP status " +++ numberToString code.

Definition contentTypeError (type : jsstring) : jsstring :=
  lit "Content is not HTML (type: " +++ type +++ lit "). Cannot summarize.".

Definition networkError (e : Thrown) : jsstring :=
  match e with
  | ThrownError message => lit "Network error when fetching the page: " +++ message
  | ThrownOther => lit "Unknown network error when fetching the page."
  end.

Definition noTextError : jsstring :=
  lit "No text content found on the page to summarize.".

Definition summarizationError (e : Thrown) : jsstring :=
  match e with
  | ThrownError message => lit "AI summarization failed: " +++ message
  | ThrownOther => lit "Unknown error during AI summarization."
  end.

Definition summaryPrompt (textContent : jsstring) : jsstring :=
  lit "Summarize the following text:" +++ [10; 10]%N +++ substring0 4000 textContent.

(** [contentType && !contentType.includes('text/html')] *)
Definition notHtml (contentType : option jsstring) : bool :=
  match contentType with
  | Some ct => truthy ct && negb (includes ct (lit "text/html"))
  | None => false
  end.

(** Steps 3 and 4, entered with [htmlContent] assigned. *)
Definition summarize (htmlContent : jsstring) : Tool Result :=
  let textContent := stripHtmlTags htmlContent in
  if negb (truthy (trim textContent)) then
    Return (failure noTextError)
  else
    AwaitGenerateText (summaryPrompt textContent) (fun generation =>
      match generation with
      | Resolved generationResult =>
          let summary :=
            match generationResult with
            | GenString s => Some s
            | GenObject _ _ => result_text generationResult
            end in
          Return {| summary := summary; error := None |}
      | Rejected e => Return (failure (summarizationError e))
      end).

Definition execute (url : jsstring) : Tool Result :=
  AwaitFetch url (fun fetched =>
    match fetched with
    | Rejected e => Return (failure (networkError e))
    | Resolved response =>
        if negb (ok response) then
          Return (failure (httpStatusError (status response)))
        else
          match text response with
          | Rejected e => Return (failure (networkError e))
          | Resolved htmlContent =>
              if notHtml (contentType response) then
                Return (failure (contentTypeError (interpolateNullable (contentType response))))
              else summarize htmlContent
          end
    end).

(** A fetched page: the fetch resolved with an ok status, its body was read
    and the content-type check let it through. *)
Definition fetchedPage (env : Env) (url : jsstring)
    (response : Response) (htmlContent : jsstring) : Prop :=
  fetch env url = Resolved response /\
  ok response = true /\
  text response = Resolved htmlContent /\
  notHtml (contentType response) = false.

(** The model call threw, gave a bare string, or gave an object that has a
    [text]. *)
Definition carriesText (generation : Settled GenerateTextResult) : bool :=
  match generation with
  | Resolved (GenObject None _) => false
  | Resolved (GenObject (Some _) _) | Resolved (GenString _) | Rejected _ => true
  end.

(** Exactly one of [summary] and [error] is set. *)
Definition exactlyOne (r : Result) : bool :=
  match summary r, error r with
  | Some _, None | None, Some _ => true
  | Some _, Some _ | None, None => false
  end.

End SummarizeUrl.

(* ================================================================== *)
(** ** translate-text.ts *)

Module TranslateText.

(** *** The input schema

    [z.object({ text: z.string().min(1), targetLanguage: z.string().min(2) })]
    parsed with [safeParse].  A property of the raw input is missing, a
    string, or a value of another type. *)

Inductive Raw : Type :=
| RawMissing
| RawString (s : jsstring)
| RawOther.

Record RawInput : Type := mkRawInput {
  rawText : Raw;
  rawTargetLanguage : Raw
}.

Record Args : Type := mkArgs {
  text : jsstring;
  targetLanguage : jsstring
}.

Inductive IssueCode : Type :=
| invalid_type
| too_small (minimum : nat).

Record Issue : Type := mkIssue {
  path : string;
  code : IssueCode
}.

(** [z.string().min(minimum)] on one property: the parsed string, or the
    issue raised. *)
Definition parseString (key : string) (minimum : nat) (v : Raw) : jsstring + Issue :=
  match v with
  | RawString s =>
      if Nat.ltb (List.length s) minimum
      then inr {| path := key; code := too_small minimum |}
      else inl s
  | RawMissing | RawOther => inr {| path := key; code := invalid_type |}
  end.

Definition issuesOf {A : Type} (r : A + Issue) : list Issue :=
  match r with
  | inl _ => []
  | inr i => [i]
  end.

Inductive SafeParseResult : Type :=
| ParseSuccess (data : Args)
| ParseFailure (issues : list Issue).

(** The object schema parses every key of its shape, in order, and gathers
    the issues. *)
Definition safeParse (input : RawInput) : SafeParseResult :=
  let t := parseString "text" 1 (rawText input) in
  let l := parseString "targetLanguage" 2 (rawTargetLanguage input) in
  match t, l with
  | inl text, inl targetLanguage =>
      ParseSuccess {| text := text; targetLanguage := targetLanguage |}
  | _, _ => ParseFailure (issuesOf t ++ issuesOf l)
  end.

(** *** The tool body *)

(** The tool returns [{ translatedText }] or [{ error }]. *)
Record Result : Type := mkResult {
  translatedText : option jsstring;
  error : option jsstring
}.

Definition success (translated : jsstring) : Result :=
  {| translatedText := Some translated; error := None |}.

Definition failure (message : jsstring) : Result :=
  {| translatedText := None; error := Some message |}.

Definition isSuccess (r : Result) : bool :=
  match translatedText r, error r with
  | Some _, None => true
  | _, _ => false
  end.

Definition translationPrompt (text targetLanguage : jsstring) : jsstring :=
  lit "Translate the following text to " +++ targetLanguage +++ lit ": "
    +++ [34%N] +++ text +++ [34%N].

Definition echoError (targetLanguage : jsstring) : jsstring :=
  lit "Translation to " +++ targetLanguage +++
  lit " might have failed or returned original text. The language might be unsupported or the text too short/ambiguous.".

Definition invalidTranslationError (finishReason : option jsstring) : jsstring :=
  lit "Translation failed. AI model did not provide a valid translation. Reason: "
    +++ interpolate finishReason.

Definition internalError (e : Thrown) : jsstring :=
  lit "Translation failed due to an internal error: " +++
  match e with
  | ThrownError message => message
  | ThrownOther => lit "An unknown error occurred"
  end.

(** [finishReason === 'stop'] *)
Definition isStop (finishReason : option jsstring) : bool :=
  match finishReason with
  | Some f => str_eqb f (lit "stop")
  | None => false
  end.

Section Execute.

(** [String.prototype.toLowerCase], whose Unicode case tables belong to the
    runtime. *)
Variable toLowerCase : jsstring -> jsstring.

(** The echo check of line 25. *)
Definition echoesInput (response text targetLanguage : jsstring) : bool :=
  str_eqb (toLowerCase (trim response)) (toLowerCase (trim text))
  && negb (str_eqb targetLanguage (lit "en")).

(** The body of the [try] block once [generateText] has resolved. *)
Definition onResolved (args : Args) (r : GenerateTextResult) : Result :=
  let translatedTextResponse := result_text r in
  let finishReason := result_finishReason r in
  match translatedTextResponse with
  | Some response =>
      if isStop finishReason && truthy response
         && Nat.ltb 0 (List.length (trim response))
      then
        if echoesInput response (text args) (targetLanguage args)
        then failure (echoError (targetLanguage args))
        else success (trim response)
      else failure (invalidTranslationError finishReason)
  | None => failure (invalidTranslationError finishReason)
  end.

Definition execute (args : Args) : Tool Result :=
  AwaitGenerateText (translationPrompt (text args) (targetLanguage args))
    (fun generation =>
       match generation with
       | Resolved r => Return (onResolved args r)
       | Rejected e => Return (failure (internalError e))
       end).

(** What a tool call gives: the arguments were refused by the schema, or
    [execute] ran on the parsed arguments. *)
Inductive CallOutcome : Type :=
| InvalidToolArguments (issues : list Issue)
| Executed (args : Args) (body : Tool Result).

(** The SDK parses the arguments of a tool call with [parameters] and hands
    the parsed data to [execute]. *)
Definition callTool (input : RawInput) : CallOutcome :=
  match safeParse input with
  | ParseSuccess data => Executed data (execute data)
  | ParseFailure issues => InvalidToolArguments issues
  end.

End Execute.

End TranslateText.

(* ================================================================== *)
(** ** The mocks of the unit tests *)

(** [fetch] and [generateText] mocked to settle the same way on every call. *)
Definition mockEnv (fetched : Settled Response)
    (generated : Settled GenerateTextResult) : Env :=
  {| fetch := fun _ => fetched; generateText := fun _ => generated |}.

Definition mockValidUrl : jsstring := lit "https://example.com/article".

Definition htmlResponse (body : jsstring) : Response :=
  {| ok := true; status := 200; text := Resolved body;
     contentType := Some (lit "text/html") |}.

(** An ok response of type [application/json] whose [text()] rejects. *)
Definition unreadableJsonResponse : Response :=
  {| ok := true; status := 200;
     text := Rejected (ThrownError (lit "terminated"));
     contentType := Some (lit "application/json") |}.

(** A completion that finished for the reason ["stop"]. *)
Definition stopped (s : jsstring) : Settled GenerateTextResult :=
  Resolved (GenObject (Some s) (Some (lit "stop"))).

(* ================================================================== *)
(** ** The last step of the summarizer *)

(** The result of the model call, as lines 64-72 of summarize-url.ts turn it
    into the tool's result. *)
Definition afterGeneration (generation : Settled GenerateTextResult)
    : SummarizeUrl.Result :=
  match generation with
  | Resolved (GenString s) =>
      {| SummarizeUrl.summary := Some s; SummarizeUrl.error := None |}
  | Resolved (GenObject t _) =>
      {| SummarizeUrl.summary := t; SummarizeUrl.error := None |}
  | Rejected e => SummarizeUrl.failure (SummarizeUrl.summarizationError e)
  end.

(* ================================================================== *)
(** ** Optional strings *)

(** Truthiness of a string that may be [undefined]. *)
Definition truthyOpt (v : option jsstring) : bool :=
  match v with
  | Some s => truthy s
  | None => false
  end.

(** [v || fallback] for a string that may be [undefined]. *)
Definition orElse (v : option jsstring) (fallback : jsstring) : jsstring :=
  match v with
  | Some s => if truthy s then s else fallback
  | None => fallback
  end.

(* ================================================================== *)
(** ** SummarizeUrlDisplay (the result view of the summarizer) *)

Module SummarizeUrlDisplay.

(** [{ args: { url?: string }, result: { summary?: string; error?: string } }] *)
Record Props : Type := mkProps {
  argsUrl : option jsstring;
  result : SummarizeUrl.Result
}.

(** What the component puts on the page: the link, whose [href], [title]
    and text are all [url]; the summary paragraph, present when
    [result.summary &&] lets it through; the error paragraph under
    "Error summarizing URL:", present when [result.error &&] does. *)
Record View : Type := mkView {
  linkUrl : jsstring;
  summaryParagraph : option jsstring;
  errorParagraph : option jsstring
}.

(** [{value && (<p>{value}</p>)}] *)
Definition whenTruthy (value : option jsstring) : option jsstring :=
  if truthyOpt value then value else None.

Definition render (props : Props) : View :=
  let url := orElse (argsUrl props) (lit "Unknown URL") in
  {| linkUrl := url;
     summaryParagraph := whenTruthy (SummarizeUrl.summary (result props));
     errorParagraph := whenTruthy (SummarizeUrl.error (result props)) |}.

End SummarizeUrlDisplay.

(** The view of a finished tool invocation: the component is given the
    arguments of the call and the result of [execute]. *)
Definition viewOfRun (env : Env) (url : jsstring) : SummarizeUrlDisplay.View :=
  SummarizeUrlDisplay.render
    {| SummarizeUrlDisplay.argsUrl := Some url;
       SummarizeUrlDisplay.result := fst (run env (SummarizeUrl.execute url)) |}.

(* ================================================================== *)
(** ** LanguageContext (the language selection of the provider) *)

Module LanguageContext.

Record Language : Type := mkLanguage {
  code : jsstring;
  name : jsstring
}.

Definition defaultLanguages : list Language :=
  [ mkLanguage (lit "en") (lit "English");
    mkLanguage (lit "es") (lit "Spanish");
    mkLanguage (lit "fr") (lit "French");
    mkLanguage (lit "de") (lit "German");
    mkLanguage (lit "ja") (lit "Japanese");
    mkLanguage (lit "ko") (lit "Korean") ].

(** The props of [LanguageProvider] other than [children]; [None] is a prop
    left out, which takes its default. *)
Record LanguageProviderProps : Type := mkProviderProps {
  defaultLanguage : option jsstring;
  languages : option (list Language)
}.

(** The data of the context value. *)
Record LanguageContextType : Type := mkContext {
  selectedLanguage : jsstring;
  availableLanguages : list Language
}.

(** The context value of the first render: the state starts at
    [defaultLanguage]. *)
Definition initialContext (props : LanguageProviderProps) : LanguageContextType :=
  {| selectedLanguage :=
       match defaultLanguage props with Some l => l | None => lit "en" end;
     availableLanguages :=
       match languages props with Some ls => ls | None => defaultLanguages end |}.

End LanguageContext.

(* ================================================================== *)
(** ** The /api/chat mock of the translation end-to-end tests *)

Module TranslationMock.

Definition MOCK_AI_ORIGINAL_RESPONSE : jsstring :=
  lit "Hello from mock AI, I can assist you.".

Record Options : Type := mkOptions {
  selectedLanguage : jsstring;
  aiOriginalText : option jsstring;
  aiTranslatedText : option jsstring;
  translationError : option jsstring
}.

(** The object handed to [JSON.stringify]: [parts] is the one text part
    [{type: 'text', text}], the last three properties are set or left out. *)
Record MessagePayload : Type := mkPayload {
  id : jsstring;
  role : jsstring;
  partText : jsstring;
  payloadTranslationError : option jsstring;
  payloadTargetLanguage : option jsstring;
  payloadOriginalText : option jsstring
}.

(** Lines 24-45; [now] is [Date.now()].  [messagePayload.parts] is the array
    [parts] itself, so the assignment to [parts[0].text] shows in the
    payload. *)
Definition messagePayload (now : N) (options : Options) : MessagePayload :=
  let assistantMessageId := lit "asst_trans_" +++ numberToString now in
  let original := orElse (aiOriginalText options) MOCK_AI_ORIGINAL_RESPONSE in
  let plain :=
    {| id := assistantMessageId; role := lit "assistant"; partText := original;
       payloadTranslationError := None; payloadTargetLanguage := None;
       payloadOriginalText := None |} in
  if truthy (selectedLanguage options)
     && negb (str_eqb (selectedLanguage options) (lit "en"))
  then
    if truthyOpt (translationError options) then
      {| id := assistantMessageId; role := lit "assistant"; partText := original;
         payloadTranslationError := translationError options;
         payloadTargetLanguage := Some (selectedLanguage options);
         payloadOriginalText := None |}
    else
      match aiTranslatedText options with
      | Some translated =>
          if truthy translated then
            {| id := assistantMessageId; role := lit "assistant";
               partText := translated;
               payloadTranslationError := None;
               payloadTargetLanguage := Some (selectedLanguage options);
               payloadOriginalText := Some original |}
          else plain
      | None => plain
      end
  else plain.

End TranslationMock.

(* ================================================================== *)
(** * Properties *)

(** ** Strings *)

Lemma str_eqb_eq (a b : jsstring) : str_eqb a b = true <-> a = b.
Proof.
  revert b; induction a as [|x a IH]; intros [|y b]; simpl;
    try (split; [discriminate | discriminate]); [tauto|].
  rewrite andb_true_iff, N.eqb_eq, IH.
  split; [intros [-> ->]; reflexivity | intros H; inversion H; auto].
Qed.

Lemma str_eqb_refl (a : jsstring) : str_eqb a a = true.
Proof. apply str_eqb_eq; reflexivity. Qed.

Lemma str_eqb_neq (a b : jsstring) : str_eqb a b = false <-> a <> b.
Proof.
  rewrite <- str_eqb_eq. destruct (str_eqb a b); split; congruence.
Qed.

Lemma blank_trimStart (s : jsstring) : blank (trimStart s) = blank s.
Proof.
  induction s as [|c s IH]; simpl; [reflexivity|].
  destruct (isWhiteSpace c) eqn:E; simpl; [exact IH | rewrite E; reflexivity].
Qed.

Lemma truthy_trimEnd (s : jsstring) : truthy (trimEnd s) = negb (blank s).
Proof.
  induction s as [|c s IH]; simpl; [reflexivity|].
  destruct (trimEnd s) as [|d t]; simpl in *.
  - apply (f_equal negb) in IH; rewrite negb_involutive in IH; simpl in IH.
    rewrite <- IH, andb_true_r. destruct (isWhiteSpace c); reflexivity.
  - apply (f_equal negb) in IH; rewrite negb_involutive in IH; simpl in IH.
    rewrite <- IH, andb_false_r. reflexivity.
Qed.

(** [!s.trim()] holds exactly of the blank strings. *)
Lemma truthy_trim (s : jsstring) : truthy (trim s) = negb (blank s).
Proof. unfold trim. rewrite truthy_trimEnd. f_equal. apply blank_trimStart. Qed.

Lemma trim_nil_blank (s : jsstring) : trim s = [] <-> blank s = true.
Proof.
  pose proof (truthy_trim s) as H.
  destruct (trim s), (blank s); simpl in H; split; congruence.
Qed.

Lemma length_trim_pos (s : jsstring) :
  Nat.ltb 0 (List.length (trim s)) = negb (blank s).
Proof. rewrite <- truthy_trim. destruct (trim s); reflexivity. Qed.

Lemma substring0_length (n : nat) (s : jsstring) :
  List.length (substring0 n s) = Nat.min n (List.length s).
Proof. apply length_firstn. Qed.

Lemma substring0_min (n : nat) (s : jsstring) :
  substring0 n s = substring0 (Nat.min (List.length s) n) s.
Proof.
  unfold substring0.
  destruct (Nat.le_ge_cases (List.length s) n) as [H|H].
  - rewrite Nat.min_l by exact H. rewrite !firstn_all2; auto.
  - rewrite Nat.min_r by exact H. reflexivity.
Qed.

(** ** Runs of summarize-url *)

Section SummarizeUrlRuns.

Import SummarizeUrl.

Variable env : Env.
Variable url : jsstring.

Lemma run_execute_rejected (e : Thrown) :
  fetch env url = Rejected e ->
  run env (execute url) = (failure (networkError e), [CallFetch url]).
Proof. intros H. simpl. rewrite H. reflexivity. Qed.

Lemma run_execute_not_ok (response : Response) :
  fetch env url = Resolved response ->
  ok response = false ->
  run env (execute url)
  = (failure (httpStatusError (status response)), [CallFetch url]).
Proof. intros H Hok. simpl. rewrite H, Hok. reflexivity. Qed.

Lemma run_execute_body_rejected (response : Response) (e : Thrown) :
  fetch env url = Resolved response ->
  ok response = true ->
  text response = Rejected e ->
  run env (execute url) = (failure (networkError e), [CallFetch url]).
Proof. intros H Hok Ht. simpl. rewrite H, Hok, Ht. reflexivity. Qed.

Lemma run_execute_not_html (response : Response) (htmlContent ct : jsstring) :
  fetch env url = Resolved response ->
  ok response = true ->
  text response = Resolved htmlContent ->
  contentType response = Some ct ->
  notHtml (Some ct) = true ->
  run env (execute url) = (failure (contentTypeError ct), [CallFetch url]).
Proof.
  intros H Hok Ht Hct Hn. simpl. rewrite H, Hok, Ht. simpl. rewrite Hct, Hn.
  reflexivity.
Qed.

Lemma run_execute_fetched (response : Response) (htmlContent : jsstring) :
  fetchedPage env url response htmlContent ->
  run env (execute url)
  = (fst (run env (summarize htmlContent)),
     CallFetch url :: snd (run env (summarize htmlContent))).
Proof.
  intros (H & Hok & Ht & Hn). simpl. rewrite H, Hok, Ht. simpl. rewrite Hn.
  destruct (run env (summarize htmlContent)); reflexivity.
Qed.

Lemma run_summarize_blank (htmlContent : jsstring) :
  blank (stripHtmlTags htmlContent) = true ->
  run env (summarize htmlContent) = (failure noTextError, []).
Proof.
  intros Hb. unfold summarize. rewrite truthy_trim, Hb. reflexivity.
Qed.

Lemma run_summarize_text (htmlContent : jsstring) :
  blank (stripHtmlTags htmlContent) = false ->
  run env (summarize htmlContent)
  = (match generateText env (summaryPrompt (stripHtmlTags htmlContent)) with
     | Resolved (GenString s) => {| summary := Some s; error := None |}
     | Resolved (GenObject t _) => {| summary := t; error := None |}
     | Rejected e => failure (summarizationError e)
     end,
     [CallGenerateText (summaryPrompt (stripHtmlTags htmlContent))]).
Proof.
  intros Hb. unfold summarize. rewrite truthy_trim, Hb. simpl.
  destruct (generateText env _) as [[s|t f]|e]; reflexivity.
Qed.

End SummarizeUrlRuns.

(** ** Summarize-URL: the fetch step *)

(** C7: a fetch that resolves with [ok] false makes [execute] return exactly
    [{error: "Failed to fetch page: HTTP status <code>"}] with the status
    printed in decimal, after the single fetch call; for status 404 the
    result is [{error: "Failed to fetch page: HTTP status 404"}]. *)
Theorem summarize_http_status_error (env : Env) (url : jsstring) (response : Response) :
  fetch env url = Resolved response ->
  ok response = false ->
  run env (SummarizeUrl.execute url)
  = ({| SummarizeUrl.summary := None;
        SummarizeUrl.error :=
          Some (lit "Failed to fetch page: HTTP status "
                +++ numberToString (status response)) |},
     [CallFetch url])
  /\ (status response = 404%N ->
      fst (run env (SummarizeUrl.execute url))
      = SummarizeUrl.failure (lit "Failed to fetch page: HTTP status 404")).
Proof.
  intros H Hok. rewrite (run_execute_not_ok _ _ H Hok). split; [reflexivity|].
  intros ->. reflexivity.
Qed.

Lemma summarize_http_status_error_witness :
  run (mockEnv (Resolved (mkResponse false 404 (Rejected ThrownOther) None))
               (Rejected ThrownOther))
      (SummarizeUrl.execute mockValidUrl)
  = (SummarizeUrl.failure (lit "Failed to fetch page: HTTP status 404"),
     [CallFetch mockValidUrl]).
Proof.
  exact (proj1 (summarize_http_status_error
    (mockEnv (Resolved (mkResponse false 404 (Rejected ThrownOther) None))
             (Rejected ThrownOther))
    mockValidUrl eq_refl eq_refl)).
Defined.

(** C10: when the fetch resolves with [ok] false the result is the
    HTTP-status error whatever the Content-Type header is, and a run that
    ends in the content-type error had a response with [ok] true: the status
    check comes first. *)
Theorem summarize_status_before_content_type (env : Env) (url : jsstring) :
  (forall response,
      fetch env url = Resolved response ->
      ok response = false ->
      fst (run env (SummarizeUrl.execute url))
      = SummarizeUrl.failure (SummarizeUrl.httpStatusError (status response)))
  /\
  (forall type,
      SummarizeUrl.error (fst (run env (SummarizeUrl.execute url)))
      = Some (SummarizeUrl.contentTypeError type) ->
      exists response, fetch env url = Resolved response /\ ok response = true).
Proof.
  split.
  - intros response H Hok. rewrite (run_execute_not_ok _ _ H Hok). reflexivity.
  - intros type. simpl.
    destruct (fetch env url) as [response|e] eqn:Hf.
    + destruct (ok response) eqn:Hok; [intros _; eauto|].
      simpl. intros H. vm_compute in H. discriminate.
    + simpl. intros H. destruct e; vm_compute in H; discriminate.
Qed.

Lemma summarize_status_before_content_type_witness :
  fst (run (mockEnv (Resolved (mkResponse false 500 (Resolved (lit "{}"))
                                 (Some (lit "application/json"))))
                    (Rejected ThrownOther))
           (SummarizeUrl.execute mockValidUrl))
  = SummarizeUrl.failure (lit "Failed to fetch page: HTTP status 500")
  /\
  exists response,
    fetch (mockEnv (Resolved (mkResponse true 200 (Resolved (lit "{}"))
                                (Some (lit "application/json"))))
                   (Rejected ThrownOther)) mockValidUrl
    = Resolved response /\ ok response = true.
Proof.
  split.
  - exact (proj1 (summarize_status_before_content_type
      (mockEnv (Resolved (mkResponse false 500 (Resolved (lit "{}"))
                            (Some (lit "application/json"))))
               (Rejected ThrownOther))
      mockValidUrl) _ eq_refl eq_refl).
  - exact (proj2 (summarize_status_before_content_type
      (mockEnv (Resolved (mkResponse true 200 (Resolved (lit "{}"))
                            (Some (lit "application/json"))))
               (Rejected ThrownOther))
      mockValidUrl) (lit "application/json") eq_refl).
Defined.

(** ** Summarize-URL: the content-type check *)

(** C6, as the code has it: when the fetch resolves with [ok] true, the body
    is read, and the Content-Type header is a non-empty string that does not
    contain ["text/html"], [execute] returns exactly
    [{error: "Content is not HTML (type: <type>). Cannot summarize."}] and
    [generateText] is never called. *)
Theorem summarize_content_type_error
    (env : Env) (url : jsstring) (response : Response) (body type : jsstring) :
  fetch env url = Resolved response ->
  ok response = true ->
  text response = Resolved body ->
  contentType response = Some type ->
  type <> [] ->
  includes type (lit "text/html") = false ->
  run env (SummarizeUrl.execute url)
  = ({| SummarizeUrl.summary := None;
        SummarizeUrl.error :=
          Some (lit "Content is not HTML (type: " +++ type
                +++ lit "). Cannot summarize.") |},
     [CallFetch url])
  /\ modelNeverInvoked (snd (run env (SummarizeUrl.execute url))) = true.
Proof.
  intros H Hok Ht Hct Hne Hinc.
  assert (Hn : SummarizeUrl.notHtml (Some type) = true).
  { simpl. rewrite Hinc. destruct type; [contradiction | reflexivity]. }
  rewrite (run_execute_not_html _ _ H Hok Ht Hct Hn). split; reflexivity.
Qed.

Lemma summarize_content_type_error_witness :
  run (mockEnv (Resolved (mkResponse true 200 (Resolved (lit "{}"))
                            (Some (lit "application/json"))))
               (Rejected ThrownOther))
      (SummarizeUrl.execute mockValidUrl)
  = (SummarizeUrl.failure
       (lit "Content is not HTML (type: application/json). Cannot summarize."),
     [CallFetch mockValidUrl]).
Proof.
  refine (proj1 (summarize_content_type_error
    (mockEnv (Resolved (mkResponse true 200 (Resolved (lit "{}"))
                          (Some (lit "application/json"))))
             (Rejected ThrownOther))
    mockValidUrl (body := lit "{}") (type := lit "application/json")
    eq_refl eq_refl eq_refl eq_refl _ eq_refl)).
  discriminate.
Defined.

(** C6 as stated fails: the body is read before the header is looked at, so
    an ok response with Content-Type [application/json] whose body cannot be
    read ends in the network error, not in the content-type error. *)
Lemma summarize_content_type_counterexample :
  ok unreadableJsonResponse = true /\
  contentType unreadableJsonResponse = Some (lit "application/json") /\
  includes (lit "application/json") (lit "text/html") = false /\
  fst (run (mockEnv (Resolved unreadableJsonResponse) (Rejected ThrownOther))
           (SummarizeUrl.execute mockValidUrl))
  = SummarizeUrl.failure (lit "Network error when fetching the page: terminated") /\
  fst (run (mockEnv (Resolved unreadableJsonResponse) (Rejected ThrownOther))
           (SummarizeUrl.execute mockValidUrl))
  <> SummarizeUrl.failure
       (lit "Content is not HTML (type: application/json). Cannot summarize.").
Proof.
  repeat split; try reflexivity. vm_compute. discriminate.
Qed.

(** A header that is present with an empty value is let through by
    [contentType && ...]: the page is summarized. *)
Example summarize_empty_content_type_passes :
  run (mockEnv (Resolved (mkResponse true 200 (Resolved (lit "<p>Hi</p>")) (Some [])))
               (Resolved (GenString (lit "A greeting."))))
      (SummarizeUrl.execute mockValidUrl)
  = ({| SummarizeUrl.summary := Some (lit "A greeting.");
        SummarizeUrl.error := None |},
     [CallFetch mockValidUrl;
      CallGenerateText (lit "Summarize the following text:" +++ [10; 10]%N +++ lit "Hi")]).
Proof. reflexivity. Qed.

(** ** Summarize-URL: extraction *)

(** C5: for a fetched page whose stripped body is empty or white space only,
    [execute] returns exactly
    [{error: "No text content found on the page to summarize."}] and
    [generateText] is never called. *)
Theorem summarize_no_text_content
    (env : Env) (url : jsstring) (response : Response) (htmlContent : jsstring) :
  SummarizeUrl.fetchedPage env url response htmlContent ->
  blank (SummarizeUrl.stripHtmlTags htmlContent) = true ->
  run env (SummarizeUrl.execute url)
  = ({| SummarizeUrl.summary := None;
        SummarizeUrl.error :=
          Some (lit "No text content found on the page to summarize.") |},
     [CallFetch url])
  /\ modelNeverInvoked (snd (run env (SummarizeUrl.execute url))) = true.
Proof.
  intros Hp Hb.
  rewrite (run_execute_fetched Hp), (run_summarize_blank env _ Hb).
  split; reflexivity.
Qed.

Lemma summarize_no_text_content_witness :
  modelNeverInvoked
    (snd (run (mockEnv
                 (Resolved (htmlResponse
                    (lit "<html><body> <!-- Just comments --> </body></html>")))
                 (Resolved (GenString (lit "unused"))))
              (SummarizeUrl.execute mockValidUrl)))
  = true.
Proof.
  refine (proj2 (summarize_no_text_content
    (env := mockEnv
       (Resolved (htmlResponse
          (lit "<html><body> <!-- Just comments --> </body></html>")))
       (Resolved (GenString (lit "unused"))))
    (url := mockValidUrl)
    (response := htmlResponse
       (lit "<html><body> <!-- Just comments --> </body></html>"))
    (htmlContent := lit "<html><body> <!-- Just comments --> </body></html>")
    _ _)).
  - repeat split; reflexivity.
  - reflexivity.
Defined.

(** ** Summarize-URL: the model call *)

(** C8: for a fetched page with text, the one prompt sent to the model is
    ["Summarize the following text:\n\n"] followed by the first
    [min(length, 4000)] code units of the stripped text; and no run sends
    a prompt of another shape. *)
Theorem summarize_prompt_truncated (env : Env) (url : jsstring) :
  (forall response htmlContent,
      SummarizeUrl.fetchedPage env url response htmlContent ->
      blank (SummarizeUrl.stripHtmlTags htmlContent) = false ->
      promptsSent (snd (run env (SummarizeUrl.execute url)))
      = [lit "Summarize the following text:" +++ [10; 10]%N +++
         firstn (Nat.min (List.length (SummarizeUrl.stripHtmlTags htmlContent)) 4000)
                (SummarizeUrl.stripHtmlTags htmlContent)])
  /\
  (forall prompt,
      In prompt (promptsSent (snd (run env (SummarizeUrl.execute url)))) ->
      exists response htmlContent,
        SummarizeUrl.fetchedPage env url response htmlContent /\
        prompt
        = lit "Summarize the following text:" +++ [10; 10]%N +++
          firstn (Nat.min (List.length (SummarizeUrl.stripHtmlTags htmlContent)) 4000)
                 (SummarizeUrl.stripHtmlTags htmlContent)).
Proof.
  split.
  - intros response htmlContent Hp Hb.
    rewrite (run_execute_fetched Hp), (run_summarize_text env _ Hb). simpl.
    unfold SummarizeUrl.summaryPrompt. rewrite substring0_min. reflexivity.
  - intros prompt.
    destruct (fetch env url) as [response|e] eqn:Hf;
      [| rewrite (run_execute_rejected _ _ Hf); simpl; tauto].
    destruct (ok response) eqn:Hok;
      [| rewrite (run_execute_not_ok _ _ Hf Hok); simpl; tauto].
    destruct (text response) as [htmlContent|e] eqn:Ht;
      [| rewrite (run_execute_body_rejected _ _ Hf Hok Ht); simpl; tauto].
    destruct (SummarizeUrl.notHtml (contentType response)) eqn:Hn.
    + destruct (contentType response) as [type|] eqn:Hct; [|discriminate].
      rewrite (run_execute_not_html _ _ Hf Hok Ht Hct Hn). simpl; tauto.
    + assert (Hp : SummarizeUrl.fetchedPage env url response htmlContent)
        by (repeat split; assumption).
      rewrite (run_execute_fetched Hp).
      destruct (blank (SummarizeUrl.stripHtmlTags htmlContent)) eqn:Hb.
      * rewrite (run_summarize_blank env _ Hb). simpl; tauto.
      * rewrite (run_summarize_text env _ Hb). simpl.
        intros [<-|[]]. exists response, htmlContent. split; [exact Hp|].
        unfold SummarizeUrl.summaryPrompt. rewrite substring0_min. reflexivity.
Qed.

Lemma summarize_prompt_truncated_witness :
  promptsSent
    (snd (run (mockEnv (Resolved (htmlResponse (lit "<p>Some text</p>")))
                       (Resolved (GenString (lit "A summary."))))
              (SummarizeUrl.execute mockValidUrl)))
  = [lit "Summarize the following text:" +++ [10; 10]%N +++ lit "Some text"].
Proof.
  refine (proj1 (summarize_prompt_truncated
    (mockEnv (Resolved (htmlResponse (lit "<p>Some text</p>")))
             (Resolved (GenString (lit "A summary."))))
    mockValidUrl)
    (htmlResponse (lit "<p>Some text</p>")) (lit "<p>Some text</p>") _ _).
  - repeat split; reflexivity.
  - reflexivity.
Defined.

(** C2, as the code has it: for a fetched page with text, whenever the model
    call throws, resolves with a bare string, or resolves with an object that
    has a [text] (the empty string included), exactly one of [summary] and
    [error] is set in the result. *)
Theorem summarize_exactly_one
    (env : Env) (url : jsstring) (response : Response) (htmlContent : jsstring) :
  SummarizeUrl.fetchedPage env url response htmlContent ->
  blank (SummarizeUrl.stripHtmlTags htmlContent) = false ->
  SummarizeUrl.carriesText
    (generateText env
       (SummarizeUrl.summaryPrompt (SummarizeUrl.stripHtmlTags htmlContent))) = true ->
  SummarizeUrl.exactlyOne (fst (run env (SummarizeUrl.execute url))) = true.
Proof.
  intros Hp Hb Hc.
  rewrite (run_execute_fetched Hp), (run_summarize_text env _ Hb). simpl.
  destruct (generateText env _) as [[s|[t|] f]|e];
    try reflexivity; discriminate.
Qed.

Lemma summarize_exactly_one_witness :
  SummarizeUrl.exactlyOne
    (fst (run (mockEnv (Resolved (htmlResponse (lit "<p>Some text</p>")))
                       (Resolved (GenObject (Some []) None)))
              (SummarizeUrl.execute mockValidUrl)))
  = true.
Proof.
  refine (summarize_exactly_one
    (env := mockEnv (Resolved (htmlResponse (lit "<p>Some text</p>")))
                    (Resolved (GenObject (Some []) None)))
    (url := mockValidUrl)
    (response := htmlResponse (lit "<p>Some text</p>"))
    (htmlContent := lit "<p>Some text</p>") _ _ _).
  - repeat split; reflexivity.
  - reflexivity.
  - reflexivity.
Defined.

(** C2 as stated fails: when the model resolves with an object that has no
    [text], the result is [{summary: undefined}]: neither [summary] nor
    [error] is set. *)
Lemma summarize_exactly_one_counterexample :
  SummarizeUrl.fetchedPage
    (mockEnv (Resolved (htmlResponse (lit "<p>Some text</p>")))
             (Resolved (GenObject None (Some (lit "stop")))))
    mockValidUrl (htmlResponse (lit "<p>Some text</p>")) (lit "<p>Some text</p>") /\
  blank (SummarizeUrl.stripHtmlTags (lit "<p>Some text</p>")) = false /\
  fst (run (mockEnv (Resolved (htmlResponse (lit "<p>Some text</p>")))
                    (Resolved (GenObject None (Some (lit "stop")))))
           (SummarizeUrl.execute mockValidUrl))
  = {| SummarizeUrl.summary := None; SummarizeUrl.error := None |} /\
  SummarizeUrl.exactlyOne
    (fst (run (mockEnv (Resolved (htmlResponse (lit "<p>Some text</p>")))
                       (Resolved (GenObject None (Some (lit "stop")))))
              (SummarizeUrl.execute mockValidUrl)))
  = false.
Proof. repeat split; reflexivity. Qed.

(** ** Translate-Text: runs *)

Section TranslateTextRuns.

Import TranslateText.

Variable toLowerCase : jsstring -> jsstring.
Variable env : Env.
Variable args : Args.

Lemma run_translate_resolved (r : GenerateTextResult) :
  generateText env (translationPrompt (text args) (targetLanguage args)) = Resolved r ->
  run env (execute toLowerCase args)
  = (onResolved toLowerCase args r,
     [CallGenerateText (translationPrompt (text args) (targetLanguage args))]).
Proof. intros H. simpl. rewrite H. reflexivity. Qed.

Lemma isStop_iff (finishReason : option jsstring) :
  isStop finishReason = true <-> finishReason = Some (lit "stop").
Proof.
  destruct finishReason as [f|]; simpl; [|split; discriminate].
  rewrite str_eqb_eq. split; [intros ->; reflexivity | intros [= ->]; reflexivity].
Qed.

(** The guard of line 23: the completion stopped naturally and its text is
    not empty once trimmed. *)
Lemma guard_true_iff (finishReason : option jsstring) (response : jsstring) :
  isStop finishReason && truthy response
    && Nat.ltb 0 (List.length (trim response)) = true
  <-> finishReason = Some (lit "stop") /\ trim response <> [].
Proof.
  rewrite !andb_true_iff, isStop_iff, length_trim_pos, negb_true_iff.
  split.
  - intros [[Hs _] Hb]. split; [exact Hs|].
    intros Ht. apply trim_nil_blank in Ht. congruence.
  - intros [Hs Ht]. assert (Hb : blank response = false).
    { destruct (blank response) eqn:E; [|reflexivity].
      apply trim_nil_blank in E. contradiction. }
    repeat split; try assumption.
    destruct response; [discriminate Hb | reflexivity].
Qed.

Lemma onResolved_valid (finishReason : option jsstring) (response : jsstring) :
  finishReason = Some (lit "stop") ->
  trim response <> [] ->
  onResolved toLowerCase args (GenObject (Some response) finishReason)
  = if echoesInput toLowerCase response (text args) (targetLanguage args)
    then failure (echoError (targetLanguage args))
    else success (trim response).
Proof.
  intros Hs Ht. unfold onResolved, result_text, result_finishReason.
  rewrite (proj2 (guard_true_iff finishReason response) (conj Hs Ht)).
  reflexivity.
Qed.

Lemma onResolved_invalid (r : GenerateTextResult) :
  ~ (result_finishReason r = Some (lit "stop") /\
     exists response, result_text r = Some response /\ trim response <> []) ->
  onResolved toLowerCase args r
  = failure (invalidTranslationError (result_finishReason r)).
Proof.
  intros Hn. unfold onResolved. cbv zeta.
  destruct (result_text r) as [response|] eqn:Ht; [|reflexivity].
  destruct (isStop (result_finishReason r) && truthy response
            && Nat.ltb 0 (List.length (trim response))) eqn:G; [|reflexivity].
  apply guard_true_iff in G. destruct G as [Hs Hne].
  exfalso. apply Hn. split; [exact Hs|]. exists response. split; [reflexivity | exact Hne].
Qed.

End TranslateTextRuns.

(** ** Translate-Text: the result of a resolved model call *)

(** C3, as the code has it: when the model call resolves, the result is a
    success if and only if [finishReason] is ["stop"], the returned text is
    not empty once trimmed, and the echo check of line 25 does not fire; and
    whenever [finishReason] is not ["stop"] or the text is missing or empty
    once trimmed, the result is exactly [{error: "Translation failed. AI
    model did not provide a valid translation. Reason: <finishReason>"}]. *)
Theorem translate_resolved_outcome
    (toLowerCase : jsstring -> jsstring) (env : Env)
    (args : TranslateText.Args) (r : GenerateTextResult) :
  generateText env
    (TranslateText.translationPrompt
       (TranslateText.text args) (TranslateText.targetLanguage args)) = Resolved r ->
  (TranslateText.isSuccess (fst (run env (TranslateText.execute toLowerCase args))) = true
   <->
   result_finishReason r = Some (lit "stop") /\
   exists response,
     result_text r = Some response /\ trim response <> [] /\
     TranslateText.echoesInput toLowerCase response
       (TranslateText.text args) (TranslateText.targetLanguage args) = false)
  /\
  (~ (result_finishReason r = Some (lit "stop") /\
      exists response, result_text r = Some response /\ trim response <> []) ->
   fst (run env (TranslateText.execute toLowerCase args))
   = {| TranslateText.translatedText := None;
        TranslateText.error :=
          Some (lit "Translation failed. AI model did not provide a valid translation. Reason: "
                +++ interpolate (result_finishReason r)) |}).
Proof.
  intros H. rewrite (run_translate_resolved toLowerCase env args H). simpl fst.
  split.
  - destruct (result_text r) as [response|] eqn:Ht.
    + destruct (TranslateText.isStop (result_finishReason r) && truthy response
                && Nat.ltb 0 (List.length (trim response))) eqn:G.
      * pose proof (proj1 (guard_true_iff _ _) G) as [Hs Hne].
        assert (E : r = GenObject (Some response) (result_finishReason r)).
        { destruct r; simpl in *; [discriminate | congruence]. }
        rewrite E at 1. rewrite (onResolved_valid toLowerCase args _ Hs Hne).
        destruct (TranslateText.echoesInput toLowerCase response _ _) eqn:Ee; simpl.
        -- split; [discriminate|].
           intros (_ & response' & [= <-] & _ & He). congruence.
        -- split; [|reflexivity]. intros _. split; [exact Hs|].
           exists response. auto.
      * rewrite onResolved_invalid.
        -- simpl. split; [discriminate|].
           intros (Hs & response' & [= <-] & Hne & _).
           rewrite (proj2 (guard_true_iff _ _) (conj Hs Hne)) in G. discriminate.
        -- intros (Hs & response' & Hr & Hne).
           assert (response' = response) as -> by congruence.
           rewrite (proj2 (guard_true_iff _ _) (conj Hs Hne)) in G. discriminate.
    + rewrite onResolved_invalid.
      * simpl. split; [discriminate|]. intros (_ & response & Hr & _). discriminate.
      * intros (_ & response & Hr & _). congruence.
  - intros Hn. rewrite (onResolved_invalid toLowerCase args r Hn). reflexivity.
Qed.

Lemma translate_resolved_outcome_witness :
  fst (run (mockEnv (Rejected ThrownOther)
                    (Resolved (GenObject (Some (lit "Incomplete translation because..."))
                                         (Some (lit "length")))))
           (TranslateText.execute asciiToLowerCase
              (TranslateText.mkArgs (lit "Hello world") (lit "es"))))
  = TranslateText.failure
      (lit "Translation failed. AI model did not provide a valid translation. Reason: length").
Proof.
  refine (proj2 (translate_resolved_outcome asciiToLowerCase
    (mockEnv (Rejected ThrownOther)
             (Resolved (GenObject (Some (lit "Incomplete translation because..."))
                                  (Some (lit "length")))))
    (TranslateText.mkArgs (lit "Hello world") (lit "es")) eq_refl) _).
  intros [Hs _]. discriminate Hs.
Defined.

(** C3 as stated fails: the completion stopped with a non-empty text, yet the
    result is not a success, because the text echoes the input and the target
    is not ["en"]. *)
Lemma translate_success_iff_counterexample :
  result_finishReason (GenObject (Some (lit "Hello world")) (Some (lit "stop")))
  = Some (lit "stop") /\
  trim (lit "Hello world") <> [] /\
  TranslateText.isSuccess
    (fst (run (mockEnv (Rejected ThrownOther) (stopped (lit "Hello world")))
              (TranslateText.execute asciiToLowerCase
                 (TranslateText.mkArgs (lit "Hello world") (lit "es")))))
  = false /\
  fst (run (mockEnv (Rejected ThrownOther) (stopped (lit "Hello world")))
           (TranslateText.execute asciiToLowerCase
              (TranslateText.mkArgs (lit "Hello world") (lit "es"))))
  <> TranslateText.failure
       (lit "Translation failed. AI model did not provide a valid translation. Reason: stop").
Proof.
  split; [reflexivity|]. split; [vm_compute; discriminate|].
  split; [reflexivity|]. vm_compute. discriminate.
Qed.

(** ** Translate-Text: the echo check *)

(** C4, as the code has it: when the model resolves with [finishReason]
    ["stop"] and a text that is not empty once trimmed, whose trimmed
    lower-cased form equals that of the input, and [targetLanguage] is not
    ["en"], the result is exactly [{error: "Translation to <targetLanguage>
    might have failed or returned original text. The language might be
    unsupported or the text too short/ambiguous."}]. *)
Theorem translate_echo_error
    (toLowerCase : jsstring -> jsstring) (env : Env)
    (args : TranslateText.Args) (response : jsstring) :
  generateText env
    (TranslateText.translationPrompt
       (TranslateText.text args) (TranslateText.targetLanguage args))
  = stopped response ->
  trim response <> [] ->
  toLowerCase (trim response) = toLowerCase (trim (TranslateText.text args)) ->
  TranslateText.targetLanguage args <> lit "en" ->
  fst (run env (TranslateText.execute toLowerCase args))
  = {| TranslateText.translatedText := None;
       TranslateText.error :=
         Some (lit "Translation to " +++ TranslateText.targetLanguage args +++
               lit " might have failed or returned original text. The language might be unsupported or the text too short/ambiguous.") |}.
Proof.
  intros H Hne Hecho Hlang.
  rewrite (run_translate_resolved toLowerCase env args H). simpl fst.
  rewrite (onResolved_valid toLowerCase args response eq_refl Hne).
  unfold TranslateText.echoesInput.
  rewrite Hecho, str_eqb_refl, (proj2 (str_eqb_neq _ _) Hlang). reflexivity.
Qed.

Lemma translate_echo_error_witness :
  fst (run (mockEnv (Rejected ThrownOther) (stopped (lit "HELLO WORLD ")))
           (TranslateText.execute asciiToLowerCase
              (TranslateText.mkArgs (lit "Hello world") (lit "es"))))
  = TranslateText.failure
      (lit "Translation to es might have failed or returned original text. The language might be unsupported or the text too short/ambiguous.").
Proof.
  refine (translate_echo_error asciiToLowerCase
    (mockEnv (Rejected ThrownOther) (stopped (lit "HELLO WORLD ")))
    (TranslateText.mkArgs (lit "Hello world") (lit "es"))
    (response := lit "HELLO WORLD ") eq_refl _ eq_refl _);
    vm_compute; discriminate.
Defined.

(** C4 as stated fails: for the input [" "] (one space, which the schema
    accepts) echoed by the model with target ["es"], the trimmed texts are
    equal, but the text is empty once trimmed and the result is the
    invalid-translation error. *)
Lemma translate_echo_error_counterexample :
  asciiToLowerCase (trim (lit " ")) = asciiToLowerCase (trim (lit " ")) /\
  lit "es" <> lit "en" /\
  TranslateText.safeParse
    (TranslateText.mkRawInput (TranslateText.RawString (lit " "))
                              (TranslateText.RawString (lit "es")))
  = TranslateText.ParseSuccess (TranslateText.mkArgs (lit " ") (lit "es")) /\
  fst (run (mockEnv (Rejected ThrownOther) (stopped (lit " ")))
           (TranslateText.execute asciiToLowerCase
              (TranslateText.mkArgs (lit " ") (lit "es"))))
  = TranslateText.failure
      (lit "Translation failed. AI model did not provide a valid translation. Reason: stop") /\
  fst (run (mockEnv (Rejected ThrownOther) (stopped (lit " ")))
           (TranslateText.execute asciiToLowerCase
              (TranslateText.mkArgs (lit " ") (lit "es"))))
  <> TranslateText.failure
       (lit "Translation to es might have failed or returned original text. The language might be unsupported or the text too short/ambiguous.").
Proof.
  split; [reflexivity|]. split; [vm_compute; discriminate|].
  split; [reflexivity|]. split; [reflexivity|]. vm_compute. discriminate.
Qed.

(** C1, as the code has it: when [targetLanguage] is ["en"] and the model
    resolves with [finishReason] ["stop"] and the input text itself, which is
    not blank, the result is [{translatedText: text.trim()}]; it is the
    original input string exactly when the input has no white space at
    either end. *)
Theorem translate_echo_to_english
    (toLowerCase : jsstring -> jsstring) (env : Env) (text : jsstring) :
  generateText env (TranslateText.translationPrompt text (lit "en")) = stopped text ->
  blank text = false ->
  fst (run env (TranslateText.execute toLowerCase
                  (TranslateText.mkArgs text (lit "en"))))
  = {| TranslateText.translatedText := Some (trim text);
       TranslateText.error := None |}
  /\
  (fst (run env (TranslateText.execute toLowerCase
                   (TranslateText.mkArgs text (lit "en"))))
   = {| TranslateText.translatedText := Some text; TranslateText.error := None |}
   <-> trim text = text).
Proof.
  intros H Hb.
  assert (Hne : trim text <> []).
  { intros E. apply trim_nil_blank in E. congruence. }
  rewrite (run_translate_resolved toLowerCase env
             (TranslateText.mkArgs text (lit "en")) H). simpl fst.
  rewrite (onResolved_valid toLowerCase _ text eq_refl Hne).
  unfold TranslateText.echoesInput. simpl TranslateText.targetLanguage.
  rewrite str_eqb_refl, andb_false_r.
  split; [reflexivity|]. unfold TranslateText.success.
  split; [intros [= E]; exact E | intros ->; reflexivity].
Qed.

Lemma translate_echo_to_english_witness :
  fst (run (mockEnv (Rejected ThrownOther) (stopped (lit "Hello world")))
           (TranslateText.execute asciiToLowerCase
              (TranslateText.mkArgs (lit "Hello world") (lit "en"))))
  = TranslateText.success (lit "Hello world").
Proof.
  exact (proj1 (translate_echo_to_english asciiToLowerCase
    (mockEnv (Rejected ThrownOther) (stopped (lit "Hello world")))
    (text := lit "Hello world") eq_refl eq_refl)).
Defined.

(** C1 as stated fails: the input [" Hi"] echoed by the model with target
    ["en"] gives [{translatedText: "Hi"}], which is not the input string. *)
Lemma translate_echo_to_english_counterexample :
  TranslateText.safeParse
    (TranslateText.mkRawInput (TranslateText.RawString (lit " Hi"))
                              (TranslateText.RawString (lit "en")))
  = TranslateText.ParseSuccess (TranslateText.mkArgs (lit " Hi") (lit "en")) /\
  fst (run (mockEnv (Rejected ThrownOther) (stopped (lit " Hi")))
           (TranslateText.execute asciiToLowerCase
              (TranslateText.mkArgs (lit " Hi") (lit "en"))))
  = TranslateText.success (lit "Hi") /\
  fst (run (mockEnv (Rejected ThrownOther) (stopped (lit " Hi")))
           (TranslateText.execute asciiToLowerCase
              (TranslateText.mkArgs (lit " Hi") (lit "en"))))
  <> TranslateText.success (lit " Hi").
Proof.
  split; [reflexivity|]. split; [reflexivity|]. vm_compute. discriminate.
Qed.

(** ** Translate-Text: the input schema *)

(** C9: whatever the text property is, an input whose [targetLanguage] is a
    string shorter than 2 fails [safeParse] with a [too_small] issue on
    [targetLanguage]; an input whose [text] is the empty string fails with a
    [too_small] issue on [text]; in both cases the tool call stops at the
    schema.  And [execute] only ever receives a text of length at least 1
    and a target language of length at least 2. *)
Theorem translate_schema_rejects
    (toLowerCase : jsstring -> jsstring) :
  (forall (rawText : TranslateText.Raw) (targetLanguage : jsstring),
      List.length targetLanguage < 2 ->
      exists issues,
        TranslateText.safeParse
          (TranslateText.mkRawInput rawText (TranslateText.RawString targetLanguage))
        = TranslateText.ParseFailure issues /\
        In (TranslateText.mkIssue "targetLanguage" (TranslateText.too_small 2)) issues /\
        TranslateText.callTool toLowerCase
          (TranslateText.mkRawInput rawText (TranslateText.RawString targetLanguage))
        = TranslateText.InvalidToolArguments issues)
  /\
  (forall rawTargetLanguage : TranslateText.Raw,
      exists issues,
        TranslateText.safeParse
          (TranslateText.mkRawInput (TranslateText.RawString []) rawTargetLanguage)
        = TranslateText.ParseFailure issues /\
        In (TranslateText.mkIssue "text" (TranslateText.too_small 1)) issues /\
        TranslateText.callTool toLowerCase
          (TranslateText.mkRawInput (TranslateText.RawString []) rawTargetLanguage)
        = TranslateText.InvalidToolArguments issues)
  /\
  (forall input args body,
      TranslateText.callTool toLowerCase input = TranslateText.Executed args body ->
      1 <= List.length (TranslateText.text args) /\
      2 <= List.length (TranslateText.targetLanguage args)).
Proof.
  split; [|split].
  - intros rawText targetLanguage Hlen.
    apply Nat.ltb_lt in Hlen.
    unfold TranslateText.callTool, TranslateText.safeParse. simpl.
    rewrite Hlen.
    destruct (TranslateText.parseString "text" 1 rawText) as [t|i]; simpl;
      eexists; (split; [reflexivity|]); (split; [|reflexivity]); simpl; auto.
  - intros rawTargetLanguage.
    unfold TranslateText.callTool, TranslateText.safeParse. simpl.
    eexists; (split; [reflexivity|]); (split; [|reflexivity]); simpl; auto.
  - intros [rawText rawTargetLanguage] args body.
    unfold TranslateText.callTool, TranslateText.safeParse. simpl.
    destruct rawText as [|t|]; simpl; try discriminate;
      destruct rawTargetLanguage as [|l|]; simpl;
      try (destruct (Nat.ltb (List.length t) 1); discriminate).
    destruct (Nat.ltb (List.length t) 1) eqn:Et;
      destruct (Nat.ltb (List.length l) 2) eqn:El; try discriminate.
    intros [= <- _]. simpl.
    apply Nat.ltb_ge in Et, El. split; assumption.
Qed.

Lemma translate_schema_rejects_witness :
  (exists issues,
      TranslateText.safeParse
        (TranslateText.mkRawInput (TranslateText.RawString (lit "Hello world"))
                                  (TranslateText.RawString (lit "e")))
      = TranslateText.ParseFailure issues /\
      In (TranslateText.mkIssue "targetLanguage" (TranslateText.too_small 2)) issues /\
      TranslateText.callTool asciiToLowerCase
        (TranslateText.mkRawInput (TranslateText.RawString (lit "Hello world"))
                                  (TranslateText.RawString (lit "e")))
      = TranslateText.InvalidToolArguments issues)
  /\
  (1 <= List.length (lit "Hello world") /\ 2 <= List.length (lit "es")).
Proof.
  split.
  - refine (proj1 (translate_schema_rejects asciiToLowerCase)
              (TranslateText.RawString (lit "Hello world")) (lit "e") _).
    simpl. lia.
  - exact (proj2 (proj2 (translate_schema_rejects asciiToLowerCase))
             (TranslateText.mkRawInput (TranslateText.RawString (lit "Hello world"))
                                       (TranslateText.RawString (lit "es")))
             (TranslateText.mkArgs (lit "Hello world") (lit "es")) _ eq_refl).
Defined.

(* ================================================================== *)
(** * Further properties of the code *)

(** ** More on strings *)

Lemma trimStart_head (s : jsstring) :
  trimStart s = [] \/
  exists c t, trimStart s = c :: t /\ isWhiteSpace c = false.
Proof.
  induction s as [|c s IH]; simpl; [left; reflexivity|].
  destruct (isWhiteSpace c) eqn:E; [exact IH|].
  right. exists c, s. split; [reflexivity | exact E].
Qed.

Lemma trimEnd_cons_nonspace (c : unit16) (s : jsstring) :
  isWhiteSpace c = false -> trimEnd (c :: s) = c :: trimEnd s.
Proof.
  intros E. simpl. destruct (trimEnd s); [rewrite E|]; reflexivity.
Qed.

Lemma trimEnd_idempotent (s : jsstring) : trimEnd (trimEnd s) = trimEnd s.
Proof.
  induction s as [|c s IH]; [reflexivity|].
  simpl. destruct (trimEnd s) as [|d t] eqn:E.
  - destruct (isWhiteSpace c) eqn:Ec; [reflexivity|]. simpl. rewrite Ec. reflexivity.
  - change (trimEnd (c :: d :: t)) with
      (match trimEnd (d :: t) with
       | [] => if isWhiteSpace c then [] else [c]
       | u => c :: u
       end).
    rewrite IH. reflexivity.
Qed.

Lemma trim_idempotent (s : jsstring) : trim (trim s) = trim s.
Proof.
  unfold trim. destruct (trimStart_head s) as [E|(c & t & E & Ec)]; rewrite E.
  - reflexivity.
  - rewrite (trimEnd_cons_nonspace c t Ec). simpl trimStart. rewrite Ec.
    rewrite <- (trimEnd_cons_nonspace c t Ec). apply trimEnd_idempotent.
Qed.

Lemma startsWith_app (p s : jsstring) : startsWith (p ++ s) p = true.
Proof.
  induction p as [|x p IH]; simpl; [destruct s; reflexivity|].
  rewrite N.eqb_refl. exact IH.
Qed.

Lemma includes_app_l (a s p : jsstring) :
  includes s p = true -> includes (a ++ s) p = true.
Proof.
  intros H. induction a as [|x a IH]; [exact H|].
  simpl. change (startsWith (x :: a ++ s) p || includes (a ++ s) p = true).
  rewrite IH. apply orb_true_r.
Qed.

Lemma includes_infix (a p b : jsstring) : includes (a ++ p ++ b) p = true.
Proof.
  apply includes_app_l.
  pose proof (startsWith_app p b) as H.
  destruct (p ++ b); cbn [includes]; rewrite H; reflexivity.
Qed.

Lemma lit_length (s : string) : List.length (lit s) = String.length s.
Proof.
  unfold lit. rewrite length_map.
  induction s as [|c s IH]; simpl; [reflexivity | rewrite IH; reflexivity].
Qed.

(** ** stripHtmlTags *)

Section StripHtmlTags.

Import SummarizeUrl.

Lemma stripFrom_no_lt (inTag : bool) (html : jsstring) :
  ~ In 60%N (stripFrom inTag html).
Proof.
  revert inTag. induction html as [|c rest IH]; intros inTag; simpl; [tauto|].
  destruct inTag.
  - destruct (N.eqb c 62); apply IH.
  - destruct (N.eqb c 60) eqn:E; [apply IH|].
    simpl. intros [H|H]; [|exact (IH false H)].
    subst c. discriminate E.
Qed.

Lemma stripFrom_plain_app (plain rest : jsstring) :
  ~ In 60%N plain ->
  stripFrom false (plain ++ rest) = plain ++ stripFrom false rest.
Proof.
  induction plain as [|c plain IH]; intros H; [reflexivity|].
  simpl in H. change ((c :: plain) ++ rest) with (c :: (plain ++ rest)).
  cbn [stripFrom].
  destruct (N.eqb c 60) eqn:E.
  - apply N.eqb_eq in E. exfalso. apply H. left. exact E.
  - rewrite IH by tauto. reflexivity.
Qed.

Lemma stripFrom_tag_closed (body rest : jsstring) :
  ~ In 62%N body ->
  stripFrom true (body ++ 62%N :: rest) = stripFrom false rest.
Proof.
  induction body as [|c body IH]; intros H; [reflexivity|].
  simpl in H. change ((c :: body) ++ 62%N :: rest) with (c :: (body ++ 62%N :: rest)).
  cbn [stripFrom].
  destruct (N.eqb c 62) eqn:E.
  - apply N.eqb_eq in E. exfalso. apply H. left. exact E.
  - apply IH. tauto.
Qed.

Lemma stripFrom_tag_open (body : jsstring) :
  ~ In 62%N body -> stripFrom true body = [].
Proof.
  induction body as [|c body IH]; intros H; [reflexivity|].
  simpl in H. cbn [stripFrom].
  destruct (N.eqb c 62) eqn:E.
  - apply N.eqb_eq in E. exfalso. apply H. left. exact E.
  - apply IH. tauto.
Qed.

End StripHtmlTags.

(** X1: the stripped text never contains a ['<']: every ['<'] of the page
    opens a match of the pattern and is removed. *)
Theorem stripHtmlTags_no_lt (html : jsstring) :
  ~ In 60%N (SummarizeUrl.stripHtmlTags html).
Proof. apply stripFrom_no_lt. Qed.

(** X2: a text without ['<'] is returned unchanged, whatever else it holds
    (a ['>'] included); so stripping twice is the same as stripping once. *)
Theorem stripHtmlTags_plain_and_idempotent (html : jsstring) :
  (~ In 60%N html -> SummarizeUrl.stripHtmlTags html = html)
  /\ SummarizeUrl.stripHtmlTags (SummarizeUrl.stripHtmlTags html)
     = SummarizeUrl.stripHtmlTags html.
Proof.
  assert (P : forall h : jsstring, ~ In 60%N h -> SummarizeUrl.stripHtmlTags h = h).
  { intros h H. unfold SummarizeUrl.stripHtmlTags.
    transitivity (SummarizeUrl.stripFrom false (h ++ [])).
    - rewrite app_nil_r. reflexivity.
    - rewrite (stripFrom_plain_app h [] H). simpl. apply app_nil_r. }
  split; [apply P|]. apply P, stripFrom_no_lt.
Qed.

Lemma stripHtmlTags_plain_and_idempotent_witness :
  SummarizeUrl.stripHtmlTags (lit "2 > 1") = lit "2 > 1".
Proof.
  refine (proj1 (stripHtmlTags_plain_and_idempotent (lit "2 > 1")) _).
  vm_compute. intuition discriminate.
Defined.

(** X3: a tag is removed with everything between its ['<'] and the first
    ['>'] after it; the text before it (free of ['<']) is kept as it is and
    stripping goes on after the ['>']. *)
Theorem stripHtmlTags_removes_tag (before body after : jsstring) :
  ~ In 60%N before ->
  ~ In 62%N body ->
  SummarizeUrl.stripHtmlTags (before +++ [60%N] +++ body +++ [62%N] +++ after)
  = before +++ SummarizeUrl.stripHtmlTags after.
Proof.
  intros Hb Ht. unfold SummarizeUrl.stripHtmlTags.
  rewrite (stripFrom_plain_app before _ Hb). f_equal.
  change (SummarizeUrl.stripFrom true (body +++ 62%N :: after)
          = SummarizeUrl.stripFrom false after).
  apply stripFrom_tag_closed. exact Ht.
Qed.

Lemma stripHtmlTags_removes_tag_witness :
  SummarizeUrl.stripHtmlTags
    (lit "Hi " +++ [60%N] +++ lit "b class=x" +++ [62%N] +++ lit "there")
  = lit "Hi " +++ SummarizeUrl.stripHtmlTags (lit "there").
Proof.
  refine (stripHtmlTags_removes_tag (lit "Hi ") (lit "b class=x") (lit "there") _ _);
    vm_compute; intuition discriminate.
Defined.

(** X4: a ['<'] that is never closed removes the rest of the page: only the
    text before it is left (so ["1 < 2"] becomes ["1 "]). *)
Theorem stripHtmlTags_unclosed_tag (before rest : jsstring) :
  ~ In 60%N before ->
  ~ In 62%N rest ->
  SummarizeUrl.stripHtmlTags (before +++ [60%N] +++ rest) = before.
Proof.
  intros Hb Hr. unfold SummarizeUrl.stripHtmlTags.
  rewrite (stripFrom_plain_app before _ Hb).
  change (before +++ SummarizeUrl.stripFrom true rest = before).
  rewrite (stripFrom_tag_open rest Hr). apply app_nil_r.
Qed.

Lemma stripHtmlTags_unclosed_tag_witness :
  SummarizeUrl.stripHtmlTags (lit "1 " +++ [60%N] +++ lit " 2") = lit "1 ".
Proof.
  refine (stripHtmlTags_unclosed_tag (lit "1 ") (lit " 2") _ _);
    vm_compute; intuition discriminate.
Defined.

(** ** Summarize-URL: every run *)

Section SummarizeUrlCases.

Import SummarizeUrl.

Variable env : Env.
Variable url : jsstring.

Lemma fetchedPage_functional (r1 r2 : Response) (h1 h2 : jsstring) :
  fetchedPage env url r1 h1 -> fetchedPage env url r2 h2 -> r1 = r2 /\ h1 = h2.
Proof.
  intros (F1 & _ & T1 & _) (F2 & _ & T2 & _).
  assert (r1 = r2) by congruence. subst r2. split; congruence.
Qed.

(** Every run either stops after the fetch with a non-empty error message,
    no page with text having been fetched, or fetched a page with text and
    called the model once. *)
Lemma run_execute_cases :
  (exists message,
      message <> [] /\
      run env (execute url) = (failure message, [CallFetch url]) /\
      forall response htmlContent,
        fetchedPage env url response htmlContent ->
        blank (stripHtmlTags htmlContent) = true)
  \/
  (exists response htmlContent,
      fetchedPage env url response htmlContent /\
      blank (stripHtmlTags htmlContent) = false /\
      run env (execute url)
      = (afterGeneration
           (generateText env (summaryPrompt (stripHtmlTags htmlContent))),
         [CallFetch url;
          CallGenerateText (summaryPrompt (stripHtmlTags htmlContent))])).
Proof.
  destruct (fetch env url) as [response|e] eqn:Hf.
  - destruct (ok response) eqn:Hok.
    + destruct (text response) as [htmlContent|e] eqn:Ht.
      * destruct (notHtml (contentType response)) eqn:Hn.
        -- destruct (contentType response) as [type|] eqn:Hct; [|discriminate].
           left. exists (contentTypeError type). split; [discriminate|].
           split; [exact (run_execute_not_html _ _ Hf Hok Ht Hct Hn)|].
           intros r h (F & _ & _ & N). exfalso.
           assert (r = response) by congruence. subst r.
           rewrite Hct in N. congruence.
        -- assert (Hp : fetchedPage env url response htmlContent)
             by (repeat split; assumption).
           destruct (blank (stripHtmlTags htmlContent)) eqn:Hb.
           ++ left. exists noTextError. split; [discriminate|].
              split.
              ** rewrite (run_execute_fetched Hp), (run_summarize_blank env _ Hb).
                 reflexivity.
              ** intros r h Hp'.
                 destruct (fetchedPage_functional Hp Hp') as [_ <-]. exact Hb.
           ++ right. exists response, htmlContent.
              split; [exact Hp|]. split; [exact Hb|].
              rewrite (run_execute_fetched Hp), (run_summarize_text env _ Hb).
              reflexivity.
      * left. exists (networkError e).
        split; [destruct e; discriminate|].
        split; [exact (run_execute_body_rejected _ _ Hf Hok Ht)|].
        intros r h (F & _ & T & _). exfalso.
        assert (r = response) by congruence. subst r. congruence.
    + left. exists (httpStatusError (status response)).
      split; [discriminate|].
      split; [exact (run_execute_not_ok _ _ Hf Hok)|].
      intros r h (F & O & _). exfalso.
      assert (r = response) by congruence. subst r. congruence.
  - left. exists (networkError e).
    split; [destruct e; discriminate|].
    split; [exact (run_execute_rejected _ _ Hf)|].
    intros r h (F & _). congruence.
Qed.

End SummarizeUrlCases.

(** X5: when [fetch] rejects, or the body of an ok response cannot be read,
    the result is the network error: with the message of the thrown [Error],
    or the fixed text for a thrown value that is no [Error]; only the fetch
    was called. *)
Theorem summarize_network_error (env : Env) (url : jsstring) (e : Thrown) :
  (fetch env url = Rejected e \/
   exists response,
     fetch env url = Resolved response /\ ok response = true /\
     text response = Rejected e) ->
  run env (SummarizeUrl.execute url)
  = ({| SummarizeUrl.summary := None;
        SummarizeUrl.error :=
          Some (match e with
                | ThrownError message =>
                    lit "Network error when fetching the page: " +++ message
                | ThrownOther =>
                    lit "Unknown network error when fetching the page."
                end) |},
     [CallFetch url]).
Proof.
  intros [H|(response & H & Hok & Ht)].
  - rewrite (run_execute_rejected _ _ H). destruct e; reflexivity.
  - rewrite (run_execute_body_rejected _ _ H Hok Ht). destruct e; reflexivity.
Qed.

Lemma summarize_network_error_witness :
  run (mockEnv (Rejected (ThrownError (lit "Network connection failed")))
               (Rejected ThrownOther))
      (SummarizeUrl.execute mockValidUrl)
  = (SummarizeUrl.failure
       (lit "Network error when fetching the page: Network connection failed"),
     [CallFetch mockValidUrl]).
Proof.
  exact (@summarize_network_error
    (mockEnv (Rejected (ThrownError (lit "Network connection failed")))
             (Rejected ThrownOther))
    mockValidUrl (ThrownError (lit "Network connection failed"))
    (or_introl eq_refl)).
Defined.

(** X6: for a fetched page with text, when the model resolves with a bare
    string or with an object that has a [text], the result is
    [{summary: <that text>}], the text being passed on as it is (not
    trimmed, not checked for emptiness), after one fetch and one model
    call. *)
Theorem summarize_success
    (env : Env) (url : jsstring) (response : Response)
    (htmlContent s : jsstring) :
  SummarizeUrl.fetchedPage env url response htmlContent ->
  blank (SummarizeUrl.stripHtmlTags htmlContent) = false ->
  (generateText env
     (SummarizeUrl.summaryPrompt (SummarizeUrl.stripHtmlTags htmlContent))
   = Resolved (GenString s)
   \/ exists finishReason,
       generateText env
         (SummarizeUrl.summaryPrompt (SummarizeUrl.stripHtmlTags htmlContent))
       = Resolved (GenObject (Some s) finishReason)) ->
  run env (SummarizeUrl.execute url)
  = ({| SummarizeUrl.summary := Some s; SummarizeUrl.error := None |},
     [CallFetch url;
      CallGenerateText
        (SummarizeUrl.summaryPrompt (SummarizeUrl.stripHtmlTags htmlContent))]).
Proof.
  intros Hp Hb Hg.
  rewrite (run_execute_fetched Hp), (run_summarize_text env _ Hb). simpl.
  destruct Hg as [Hg|(f & Hg)]; rewrite Hg; reflexivity.
Qed.

Lemma summarize_success_witness :
  run (mockEnv (Resolved (htmlResponse (lit "<body>Some text</body>")))
               (Resolved (GenString (lit " Direct summary string. "))))
      (SummarizeUrl.execute mockValidUrl)
  = ({| SummarizeUrl.summary := Some (lit " Direct summary string. ");
        SummarizeUrl.error := None |},
     [CallFetch mockValidUrl;
      CallGenerateText
        (lit "Summarize the following text:" +++ [10; 10]%N +++ lit "Some text")]).
Proof.
  refine (summarize_success
    (env := mockEnv (Resolved (htmlResponse (lit "<body>Some text</body>")))
                    (Resolved (GenString (lit " Direct summary string. "))))
    (url := mockValidUrl)
    (response := htmlResponse (lit "<body>Some text</body>"))
    (htmlContent := lit "<body>Some text</body>")
    (s := lit " Direct summary string. ") _ _ _).
  - repeat split; reflexivity.
  - reflexivity.
  - left. reflexivity.
Defined.

(** X7: for a fetched page with text, when the model call throws, the
    result is [{error: "AI summarization failed: <message>"}] for a thrown
    [Error] and [{error: "Unknown error during AI summarization."}] for any
    other thrown value; the model was called once and not again. *)
Theorem summarize_model_failure
    (env : Env) (url : jsstring) (response : Response)
    (htmlContent : jsstring) (e : Thrown) :
  SummarizeUrl.fetchedPage env url response htmlContent ->
  blank (SummarizeUrl.stripHtmlTags htmlContent) = false ->
  generateText env
    (SummarizeUrl.summaryPrompt (SummarizeUrl.stripHtmlTags htmlContent))
  = Rejected e ->
  run env (SummarizeUrl.execute url)
  = ({| SummarizeUrl.summary := None;
        SummarizeUrl.error :=
          Some (match e with
                | ThrownError message => lit "AI summarization failed: " +++ message
                | ThrownOther => lit "Unknown error during AI summarization."
                end) |},
     [CallFetch url;
      CallGenerateText
        (SummarizeUrl.summaryPrompt (SummarizeUrl.stripHtmlTags htmlContent))]).
Proof.
  intros Hp Hb Hg.
  rewrite (run_execute_fetched Hp), (run_summarize_text env _ Hb). simpl.
  rewrite Hg. destruct e; reflexivity.
Qed.

Lemma summarize_model_failure_witness :
  fst (run (mockEnv (Resolved (htmlResponse (lit "<html><body>Some text</body></html>")))
                    (Rejected (ThrownError (lit "AI model error"))))
           (SummarizeUrl.execute mockValidUrl))
  = SummarizeUrl.failure (lit "AI summarization failed: AI model error").
Proof.
  refine (f_equal fst (summarize_model_failure
    (env := mockEnv (Resolved (htmlResponse (lit "<html><body>Some text</body></html>")))
                    (Rejected (ThrownError (lit "AI model error"))))
    (url := mockValidUrl)
    (response := htmlResponse (lit "<html><body>Some text</body></html>"))
    (htmlContent := lit "<html><body>Some text</body></html>")
    (e := ThrownError (lit "AI model error")) _ _ _)).
  - repeat split; reflexivity.
  - reflexivity.
  - reflexivity.
Defined.

(** X8: whatever the network and the model do, a run makes one fetch of the
    given URL first and then at most one model call: nothing is retried and
    the model is never called before the page is fetched. *)
Theorem summarize_call_discipline (env : Env) (url : jsstring) :
  snd (run env (SummarizeUrl.execute url)) = [CallFetch url]
  \/ exists prompt,
       snd (run env (SummarizeUrl.execute url))
       = [CallFetch url; CallGenerateText prompt].
Proof.
  destruct (run_execute_cases env url)
    as [(m & _ & R & _)|(response & html & _ & _ & R)]; rewrite R; simpl.
  - left. reflexivity.
  - right. eexists. reflexivity.
Qed.

(** X9: the model is called exactly when a page was fetched (ok status, body
    read, content-type check passed) whose stripped text is not blank. *)
Theorem summarize_model_called_iff (env : Env) (url : jsstring) :
  modelNeverInvoked (snd (run env (SummarizeUrl.execute url))) = false
  <->
  exists response htmlContent,
    SummarizeUrl.fetchedPage env url response htmlContent /\
    blank (SummarizeUrl.stripHtmlTags htmlContent) = false.
Proof.
  destruct (run_execute_cases env url)
    as [(m & _ & R & Hno)|(response & html & Hp & Hb & R)]; rewrite R; simpl.
  - split; [discriminate|].
    intros (response & html & Hp & Hb). rewrite (Hno _ _ Hp) in Hb. discriminate.
  - split; [|reflexivity]. intros _. exists response, html. split; assumption.
Qed.

(** X10: no result carries both a summary and an error; and a result
    carries neither exactly when a page with text was fetched and the model
    resolved with an object that has no [text]. *)
Theorem summarize_never_both (env : Env) (url : jsstring) :
  ~ (SummarizeUrl.summary (fst (run env (SummarizeUrl.execute url))) <> None /\
     SummarizeUrl.error (fst (run env (SummarizeUrl.execute url))) <> None)
  /\
  (SummarizeUrl.exactlyOne (fst (run env (SummarizeUrl.execute url))) = false
   <->
   exists response htmlContent finishReason,
     SummarizeUrl.fetchedPage env url response htmlContent /\
     blank (SummarizeUrl.stripHtmlTags htmlContent) = false /\
     generateText env
       (SummarizeUrl.summaryPrompt (SummarizeUrl.stripHtmlTags htmlContent))
     = Resolved (GenObject None finishReason)).
Proof.
  destruct (run_execute_cases env url)
    as [(m & _ & R & Hno)|(response & html & Hp & Hb & R)]; rewrite R; simpl fst.
  - split; [simpl; intros [H _]; apply H; reflexivity|].
    split; [discriminate|].
    intros (response & html & f & Hp & Hb & _).
    rewrite (Hno _ _ Hp) in Hb. discriminate.
  - destruct (generateText env _) as [[s|[t|] f]|e] eqn:G; simpl.
    + split; [intros [_ H]; apply H; reflexivity|].
      split; [discriminate|].
      intros (r' & h' & f' & Hp' & _ & G').
      destruct (fetchedPage_functional Hp Hp') as [_ <-]. congruence.
    + split; [intros [_ H]; apply H; reflexivity|].
      split; [discriminate|].
      intros (r' & h' & f' & Hp' & _ & G').
      destruct (fetchedPage_functional Hp Hp') as [_ <-]. congruence.
    + split; [intros [_ H]; apply H; reflexivity|].
      split; [|reflexivity]. intros _. exists response, html, f. auto.
    + split; [intros [H _]; apply H; reflexivity|].
      split; [discriminate|].
      intros (r' & h' & f' & Hp' & _ & G').
      destruct (fetchedPage_functional Hp Hp') as [_ <-]. congruence.
Qed.

(** X11: every prompt the summarizer sends to the model has at most 4031
    code units: the 31 of the fixed heading and at most 4000 of page text,
    however long the page is. *)
Theorem summarize_prompt_bounded (env : Env) (url prompt : jsstring) :
  In prompt (promptsSent (snd (run env (SummarizeUrl.execute url)))) ->
  List.length prompt <= 4031.
Proof.
  destruct (run_execute_cases env url)
    as [(m & _ & R & _)|(response & html & _ & _ & R)]; rewrite R; simpl.
  - tauto.
  - intros [<-|[]]. unfold SummarizeUrl.summaryPrompt.
    rewrite !length_app, lit_length, substring0_length. simpl String.length.
    simpl List.length. lia.
Qed.

Lemma summarize_prompt_bounded_witness :
  List.length (lit "Summarize the following text:" +++ [10; 10]%N +++ lit "Some text")
  <= 4031.
Proof.
  refine (@summarize_prompt_bounded
    (mockEnv (Resolved (htmlResponse (lit "<p>Some text</p>")))
             (Resolved (GenString (lit "A summary."))))
    mockValidUrl _ _).
  left. reflexivity.
Defined.

(** X12: the content-type check lets a page through when the header is
    absent and when its value holds ["text/html"] anywhere (as in
    ["text/html; charset=utf-8"]): the run goes on with extraction. *)
Theorem summarize_content_type_accepted
    (env : Env) (url : jsstring) (response : Response) (htmlContent : jsstring) :
  fetch env url = Resolved response ->
  ok response = true ->
  text response = Resolved htmlContent ->
  (contentType response = None \/
   exists before after,
     contentType response = Some (before +++ lit "text/html" +++ after)) ->
  SummarizeUrl.fetchedPage env url response htmlContent /\
  run env (SummarizeUrl.execute url)
  = (fst (run env (SummarizeUrl.summarize htmlContent)),
     CallFetch url :: snd (run env (SummarizeUrl.summarize htmlContent))).
Proof.
  intros H Hok Ht Hct.
  assert (Hp : SummarizeUrl.fetchedPage env url response htmlContent).
  { repeat split; try assumption.
    destruct Hct as [->|(a & b & ->)]; [reflexivity|].
    unfold SummarizeUrl.notHtml. rewrite includes_infix. apply andb_false_r. }
  split; [exact Hp | exact (run_execute_fetched Hp)].
Qed.

Lemma summarize_content_type_accepted_witness :
  SummarizeUrl.fetchedPage
    (mockEnv (Resolved (mkResponse true 200 (Resolved (lit "<p>Hi</p>"))
                          (Some (lit "text/html; charset=utf-8"))))
             (Rejected ThrownOther))
    mockValidUrl
    (mkResponse true 200 (Resolved (lit "<p>Hi</p>"))
                (Some (lit "text/html; charset=utf-8")))
    (lit "<p>Hi</p>").
Proof.
  refine (proj1 (@summarize_content_type_accepted
    (mockEnv (Resolved (mkResponse true 200 (Resolved (lit "<p>Hi</p>"))
                          (Some (lit "text/html; charset=utf-8"))))
             (Rejected ThrownOther))
    mockValidUrl
    (mkResponse true 200 (Resolved (lit "<p>Hi</p>"))
                (Some (lit "text/html; charset=utf-8")))
    (lit "<p>Hi</p>") eq_refl eq_refl eq_refl _)).
  right. exists [], (lit "; charset=utf-8"). reflexivity.
Defined.

(** ** SummarizeUrlDisplay on the results of the tool *)

(** X13: shown the result of any run of the summarizer, the view never has
    both the summary and the error paragraph; its error paragraph is the
    tool's error, which is therefore always displayed; its summary paragraph
    is the tool's summary unless that is missing or empty, when nothing is
    shown in its place; and the link is the URL that was summarized, when
    that is not empty. *)
Theorem display_of_run (env : Env) (url : jsstring) :
  ~ (SummarizeUrlDisplay.summaryParagraph (viewOfRun env url) <> None /\
     SummarizeUrlDisplay.errorParagraph (viewOfRun env url) <> None)
  /\ SummarizeUrlDisplay.errorParagraph (viewOfRun env url)
     = SummarizeUrl.error (fst (run env (SummarizeUrl.execute url)))
  /\ (SummarizeUrlDisplay.summaryParagraph (viewOfRun env url)
      = match SummarizeUrl.summary (fst (run env (SummarizeUrl.execute url))) with
        | Some (c :: s) => Some (c :: s)
        | Some [] | None => None
        end)
  /\ (url <> [] -> SummarizeUrlDisplay.linkUrl (viewOfRun env url) = url).
Proof.
  unfold viewOfRun.
  assert (Hurl : url <> [] -> orElse (Some url) (lit "Unknown URL") = url).
  { destruct url; [contradiction | reflexivity]. }
  destruct (run_execute_cases env url)
    as [(m & Hm & R & _)|(response & html & _ & _ & R)]; rewrite R; simpl fst;
    unfold SummarizeUrlDisplay.render; cbn [SummarizeUrlDisplay.argsUrl
      SummarizeUrlDisplay.result SummarizeUrlDisplay.linkUrl
      SummarizeUrlDisplay.summaryParagraph SummarizeUrlDisplay.errorParagraph].
  - destruct m as [|c m]; [contradiction|].
    unfold SummarizeUrlDisplay.whenTruthy. simpl.
    repeat split; try assumption. intros [H _]. apply H. reflexivity.
  - unfold afterGeneration.
    destruct (generateText env _) as [[[|c s]|[[|c s]|] f]|e];
      unfold SummarizeUrlDisplay.whenTruthy; simpl;
      try (repeat split; try assumption; intros [_ H]; apply H; reflexivity).
    destruct e; simpl;
      (repeat split; try assumption; intros [H _]; apply H; reflexivity).
Qed.

Lemma display_of_run_witness :
  SummarizeUrlDisplay.linkUrl
    (viewOfRun (mockEnv (Resolved (mkResponse false 404 (Rejected ThrownOther) None))
                        (Rejected ThrownOther))
               mockValidUrl)
  = mockValidUrl.
Proof.
  refine (proj2 (proj2 (proj2 (display_of_run
    (mockEnv (Resolved (mkResponse false 404 (Rejected ThrownOther) None))
             (Rejected ThrownOther))
    mockValidUrl))) _).
  discriminate.
Defined.

(** ** Translate-Text: every run *)

Section TranslateTextCases.

Import TranslateText.

Variable toLowerCase : jsstring -> jsstring.
Variable env : Env.
Variable args : Args.

Lemma run_translate :
  run env (execute toLowerCase args)
  = (match generateText env (translationPrompt (text args) (targetLanguage args)) with
     | Resolved r => onResolved toLowerCase args r
     | Rejected e => failure (internalError e)
     end,
     [CallGenerateText (translationPrompt (text args) (targetLanguage args))]).
Proof.
  simpl. destruct (generateText env _); reflexivity.
Qed.

(** The three ways out of the [try] block after the model resolved. *)
Lemma onResolved_cases (r : GenerateTextResult) :
  onResolved toLowerCase args r
  = failure (invalidTranslationError (result_finishReason r))
  \/ onResolved toLowerCase args r = failure (echoError (targetLanguage args))
  \/ exists response,
       result_text r = Some response /\
       result_finishReason r = Some (lit "stop") /\
       trim response <> [] /\
       echoesInput toLowerCase response (text args) (targetLanguage args) = false /\
       onResolved toLowerCase args r = success (trim response).
Proof.
  unfold onResolved. cbv zeta.
  destruct (result_text r) as [response|] eqn:Ht; [|left; reflexivity].
  destruct (isStop (result_finishReason r) && truthy response
            && Nat.ltb 0 (List.length (trim response))) eqn:G; [|left; reflexivity].
  apply guard_true_iff in G. destruct G as [Hs Hne].
  destruct (echoesInput toLowerCase response (text args) (targetLanguage args)) eqn:E.
  - right. left. reflexivity.
  - right. right. exists response. auto.
Qed.

End TranslateTextCases.

(** X14: when the model call throws, the result is
    [{error: "Translation failed due to an internal error: <message>"}],
    with ["An unknown error occurred"] as the message when the thrown value
    is no [Error]. *)
Theorem translate_internal_error
    (toLowerCase : jsstring -> jsstring) (env : Env)
    (args : TranslateText.Args) (e : Thrown) :
  generateText env
    (TranslateText.translationPrompt
       (TranslateText.text args) (TranslateText.targetLanguage args))
  = Rejected e ->
  fst (run env (TranslateText.execute toLowerCase args))
  = {| TranslateText.translatedText := None;
       TranslateText.error :=
         Some (lit "Translation failed due to an internal error: " +++
               match e with
               | ThrownError message => message
               | ThrownOther => lit "An unknown error occurred"
               end) |}.
Proof.
  intros H. rewrite run_translate, H. reflexivity.
Qed.

Lemma translate_internal_error_witness :
  fst (run (mockEnv (Rejected ThrownOther)
                    (Rejected (ThrownError (lit "AI model unavailable"))))
           (TranslateText.execute asciiToLowerCase
              (TranslateText.mkArgs (lit "Hello world") (lit "es"))))
  = TranslateText.failure
      (lit "Translation failed due to an internal error: AI model unavailable").
Proof.
  exact (@translate_internal_error asciiToLowerCase
    (mockEnv (Rejected ThrownOther)
             (Rejected (ThrownError (lit "AI model unavailable"))))
    (TranslateText.mkArgs (lit "Hello world") (lit "es"))
    (ThrownError (lit "AI model unavailable")) eq_refl).
Defined.

(** X15: whatever the model does, a run of the translator makes exactly one
    model call and no fetch; the prompt is
    [Translate the following text to <targetLanguage>: "<text>"] with the
    text put between the quotes as it is. *)
Theorem translate_call_discipline
    (toLowerCase : jsstring -> jsstring) (env : Env) (args : TranslateText.Args) :
  snd (run env (TranslateText.execute toLowerCase args))
  = [CallGenerateText
       (lit "Translate the following text to "
        +++ TranslateText.targetLanguage args +++ lit ": "
        +++ [34%N] +++ TranslateText.text args +++ [34%N])].
Proof. rewrite run_translate. reflexivity. Qed.

(** X16: every result of the translator carries exactly one of
    [translatedText] and [error], and an error message is never empty. *)
Theorem translate_exactly_one
    (toLowerCase : jsstring -> jsstring) (env : Env) (args : TranslateText.Args) :
  (exists translated,
      fst (run env (TranslateText.execute toLowerCase args))
      = {| TranslateText.translatedText := Some translated;
           TranslateText.error := None |})
  \/
  (exists message,
      message <> [] /\
      fst (run env (TranslateText.execute toLowerCase args))
      = {| TranslateText.translatedText := None;
           TranslateText.error := Some message |}).
Proof.
  rewrite run_translate. simpl fst.
  destruct (generateText env _) as [r|e].
  - destruct (onResolved_cases toLowerCase args r)
      as [H|[H|(response & _ & _ & _ & _ & H)]]; rewrite H.
    + right. eexists. split; [|reflexivity]. discriminate.
    + right. eexists. split; [|reflexivity]. discriminate.
    + left. eexists. reflexivity.
  - right. eexists. split; [|reflexivity]. discriminate.
Qed.

(** X17: a translated text that the tool returns is never empty and has no
    white space at either end (trimming it again changes nothing); it is the
    trimmed text of a completion that finished with ["stop"]. *)
Theorem translate_success_trimmed
    (toLowerCase : jsstring -> jsstring) (env : Env)
    (args : TranslateText.Args) (translated : jsstring) :
  TranslateText.translatedText
    (fst (run env (TranslateText.execute toLowerCase args))) = Some translated ->
  translated <> [] /\
  trim translated = translated /\
  exists response,
    generateText env
      (TranslateText.translationPrompt
         (TranslateText.text args) (TranslateText.targetLanguage args))
    = Resolved (GenObject (Some response) (Some (lit "stop"))) /\
    translated = trim response.
Proof.
  rewrite run_translate. simpl fst.
  destruct (generateText env _) as [r|e]; [|discriminate].
  destruct (onResolved_cases toLowerCase args r)
    as [H|[H|(response & Ht & Hs & Hne & _ & H)]]; rewrite H; try discriminate.
  simpl. intros [= <-]. split; [exact Hne|]. split; [apply trim_idempotent|].
  exists response. split; [|reflexivity].
  destruct r; simpl in *; [discriminate | congruence].
Qed.

Lemma translate_success_trimmed_witness :
  lit "Hola Mundo" <> [] /\
  trim (lit "Hola Mundo") = lit "Hola Mundo" /\
  exists response,
    generateText (mockEnv (Rejected ThrownOther) (stopped (lit " Hola Mundo ")))
      (TranslateText.translationPrompt (lit "Hello world") (lit "es"))
    = Resolved (GenObject (Some response) (Some (lit "stop"))) /\
    lit "Hola Mundo" = trim response.
Proof.
  exact (@translate_success_trimmed asciiToLowerCase
    (mockEnv (Rejected ThrownOther) (stopped (lit " Hola Mundo ")))
    (TranslateText.mkArgs (lit "Hello world") (lit "es"))
    (lit "Hola Mundo") eq_refl).
Defined.

(** X18: a completion that finished with ["stop"] and is not blank becomes
    [{translatedText: <trimmed text>}] whenever the target is ["en"] or its
    trimmed lower-cased text differs from that of the input. *)
Theorem translate_success
    (toLowerCase : jsstring -> jsstring) (env : Env)
    (args : TranslateText.Args) (response : jsstring) :
  generateText env
    (TranslateText.translationPrompt
       (TranslateText.text args) (TranslateText.targetLanguage args))
  = stopped response ->
  trim response <> [] ->
  (TranslateText.targetLanguage args = lit "en" \/
   toLowerCase (trim response) <> toLowerCase (trim (TranslateText.text args))) ->
  fst (run env (TranslateText.execute toLowerCase args))
  = {| TranslateText.translatedText := Some (trim response);
       TranslateText.error := None |}.
Proof.
  intros H Hne Hd. rewrite run_translate, H. simpl fst.
  rewrite (onResolved_valid toLowerCase args response eq_refl Hne).
  unfold TranslateText.echoesInput.
  destruct Hd as [->|Hd].
  - rewrite str_eqb_refl, andb_false_r. reflexivity.
  - rewrite (proj2 (str_eqb_neq _ _) Hd). reflexivity.
Qed.

Lemma translate_success_witness :
  fst (run (mockEnv (Rejected ThrownOther) (stopped (lit "Hola Mundo")))
           (TranslateText.execute asciiToLowerCase
              (TranslateText.mkArgs (lit "Hello world") (lit "es"))))
  = TranslateText.success (lit "Hola Mundo").
Proof.
  refine (@translate_success asciiToLowerCase
    (mockEnv (Rejected ThrownOther) (stopped (lit "Hola Mundo")))
    (TranslateText.mkArgs (lit "Hello world") (lit "es"))
    (lit "Hola Mundo") eq_refl _ _).
  - discriminate.
  - right. vm_compute. discriminate.
Defined.

(** ** Translate-Text: the schema, in full *)

(** X19: [safeParse] succeeds exactly on the inputs whose [text] is a string
    of at least 1 code unit and whose [targetLanguage] is a string of at
    least 2; the parsed data are those two strings as they came (nothing is
    trimmed, so a text of white space passes). *)
Theorem translate_schema_accepts_iff
    (input : TranslateText.RawInput) (data : TranslateText.Args) :
  TranslateText.safeParse input = TranslateText.ParseSuccess data
  <->
  TranslateText.rawText input = TranslateText.RawString (TranslateText.text data) /\
  TranslateText.rawTargetLanguage input
  = TranslateText.RawString (TranslateText.targetLanguage data) /\
  1 <= List.length (TranslateText.text data) /\
  2 <= List.length (TranslateText.targetLanguage data).
Proof.
  destruct input as [rawText rawTargetLanguage], data as [t l].
  unfold TranslateText.safeParse. simpl.
  split.
  - destruct rawText as [|t'|]; simpl; try discriminate;
      destruct rawTargetLanguage as [|l'|]; simpl;
      try (destruct (Nat.ltb (List.length t') 1); discriminate).
    destruct (Nat.ltb (List.length t') 1) eqn:Et;
      destruct (Nat.ltb (List.length l') 2) eqn:El; try discriminate.
    intros [= <- <-]. apply Nat.ltb_ge in Et, El. auto.
  - intros (-> & -> & Ht & Hl). simpl.
    apply Nat.ltb_ge in Ht, Hl. rewrite Ht, Hl. reflexivity.
Qed.



(** ** LanguageContext and the translator *)

(** X21: with the default props of [LanguageProvider], the language selected
    at first is ["en"] and is one of the available languages; and every
    available language code is accepted by the translator's schema as
    [targetLanguage], with any non-empty text. *)
Theorem default_languages_are_valid_targets :
  In (LanguageContext.selectedLanguage
        (LanguageContext.initialContext (LanguageContext.mkProviderProps None None)))
     (map LanguageContext.code
        (LanguageContext.availableLanguages
           (LanguageContext.initialContext (LanguageContext.mkProviderProps None None))))
  /\
  forall language text,
    In language
       (LanguageContext.availableLanguages
          (LanguageContext.initialContext (LanguageContext.mkProviderProps None None))) ->
    text <> [] ->
    TranslateText.safeParse
      (TranslateText.mkRawInput
         (TranslateText.RawString text)
         (TranslateText.RawString (LanguageContext.code language)))
    = TranslateText.ParseSuccess
        (TranslateText.mkArgs text (LanguageContext.code language)).
Proof.
  split; [left; reflexivity|].
  intros language text Hin Hne.
  unfold TranslateText.safeParse. simpl.
  destruct text as [|c t]; [contradiction|]. simpl. simpl in Hin.
  repeat (destruct Hin as [<-|Hin]; [reflexivity|]). contradiction.
Qed.

Lemma default_languages_are_valid_targets_witness :
  TranslateText.safeParse
    (TranslateText.mkRawInput
       (TranslateText.RawString (lit "Hello world"))
       (TranslateText.RawString (lit "ja")))
  = TranslateText.ParseSuccess (TranslateText.mkArgs (lit "Hello world") (lit "ja")).
Proof.
  refine (proj2 default_languages_are_valid_targets
    (LanguageContext.mkLanguage (lit "ja") (lit "Japanese")) (lit "Hello world") _ _).
  - simpl. tauto.
  - discriminate.
Defined.

(** ** The /api/chat mock of the translation tests *)

(** X22: the mocked assistant message carries a translation error or an
    original text, never both; it names a target language exactly when it
    carries one of the two, and then the language under test; and whenever
    it carries an original text, that is the original response while the
    displayed part is a non-empty translated text. *)
Theorem mock_payload_shape (now : N) (options : TranslationMock.Options) :
  ~ (TranslationMock.payloadTranslationError
       (TranslationMock.messagePayload now options) <> None /\
     TranslationMock.payloadOriginalText
       (TranslationMock.messagePayload now options) <> None)
  /\
  (TranslationMock.payloadTargetLanguage (TranslationMock.messagePayload now options)
   = (if truthyOpt (TranslationMock.payloadTranslationError
                      (TranslationMock.messagePayload now options))
         || truthyOpt (TranslationMock.payloadOriginalText
                         (TranslationMock.messagePayload now options))
      then Some (TranslationMock.selectedLanguage options)
      else None))
  /\
  (forall original,
      TranslationMock.payloadOriginalText (TranslationMock.messagePayload now options)
      = Some original ->
      original = orElse (TranslationMock.aiOriginalText options)
                        TranslationMock.MOCK_AI_ORIGINAL_RESPONSE /\
      TranslationMock.aiTranslatedText options
      = Some (TranslationMock.partText (TranslationMock.messagePayload now options)) /\
      TranslationMock.partText (TranslationMock.messagePayload now options) <> []).
Proof.
  assert (Ho : forall v, truthy (orElse v TranslationMock.MOCK_AI_ORIGINAL_RESPONSE) = true).
  { intros [[|c s]|]; reflexivity. }
  unfold TranslationMock.messagePayload. cbv zeta.
  destruct (truthy (TranslationMock.selectedLanguage options)
            && negb (str_eqb (TranslationMock.selectedLanguage options) (lit "en"))).
  - destruct (TranslationMock.translationError options) as [[|c e]|] eqn:Ee; simpl.
    + destruct (TranslationMock.aiTranslatedText options) as [[|d t]|]; simpl;
        try rewrite Ho; simpl;
        (split; [intros [H _]; apply H; reflexivity|]);
        (split; [reflexivity|]); try discriminate.
      intros original [= <-]. repeat split. discriminate.
    + split; [intros [_ H]; apply H; reflexivity|].
      split; [reflexivity | discriminate].
    + destruct (TranslationMock.aiTranslatedText options) as [[|d t]|]; simpl;
        try rewrite Ho; simpl;
        (split; [intros [H _]; apply H; reflexivity|]);
        (split; [reflexivity|]); try discriminate.
      intros original [= <-]. repeat split. discriminate.
  - simpl. split; [intros [H _]; apply H; reflexivity|].
    split; [reflexivity | discriminate].
Qed.

Lemma mock_payload_shape_witness :
  lit "Hello from mock AI, I can assist you."
  = orElse (Some (lit "Hello from mock AI, I can assist you."))
           TranslationMock.MOCK_AI_ORIGINAL_RESPONSE /\
  Some (lit "Hola desde la IA simulada, puedo ayudarte.")
  = Some (TranslationMock.partText
            (TranslationMock.messagePayload 0
               (TranslationMock.mkOptions (lit "es")
                  (Some (lit "Hello from mock AI, I can assist you."))
                  (Some (lit "Hola desde la IA simulada, puedo ayudarte."))
                  None))) /\
  TranslationMock.partText
    (TranslationMock.messagePayload 0
       (TranslationMock.mkOptions (lit "es")
          (Some (lit "Hello from mock AI, I can assist you."))
          (Some (lit "Hola desde la IA simulada, puedo ayudarte."))
          None)) <> [].
Proof.
  exact (proj2 (proj2 (mock_payload_shape 0
    (TranslationMock.mkOptions (lit "es")
       (Some (lit "Hello from mock AI, I can assist you."))
       (Some (lit "Hola desde la IA simulada, puedo ayudarte."))
       None)))
    (lit "Hello from mock AI, I can assist you.") eq_refl).
Defined.

(** X23: when the language under test is ["en"] or empty, the mocked message
    is the plain original response with no translation field; and for any
    other language a non-empty translation error wins over a translated
    text: the original response stays displayed, the error and the target
    language are set, and no original text is attached. *)
Theorem mock_payload_precedence (now : N) (options : TranslationMock.Options) :
  (TranslationMock.selectedLanguage options = lit "en" \/
   TranslationMock.selectedLanguage options = [] ->
   TranslationMock.partText (TranslationMock.messagePayload now options)
   = orElse (TranslationMock.aiOriginalText options)
            TranslationMock.MOCK_AI_ORIGINAL_RESPONSE /\
   TranslationMock.payloadTranslationError (TranslationMock.messagePayload now options)
   = None /\
   TranslationMock.payloadTargetLanguage (TranslationMock.messagePayload now options)
   = None /\
   TranslationMock.payloadOriginalText (TranslationMock.messagePayload now options)
   = None)
  /\
  (forall message,
      TranslationMock.selectedLanguage options <> lit "en" ->
      TranslationMock.selectedLanguage options <> [] ->
      TranslationMock.translationError options = Some message ->
      message <> [] ->
      TranslationMock.partText (TranslationMock.messagePayload now options)
      = orElse (TranslationMock.aiOriginalText options)
               TranslationMock.MOCK_AI_ORIGINAL_RESPONSE /\
      TranslationMock.payloadTranslationError (TranslationMock.messagePayload now options)
      = Some message /\
      TranslationMock.payloadTargetLanguage (TranslationMock.messagePayload now options)
      = Some (TranslationMock.selectedLanguage options) /\
      TranslationMock.payloadOriginalText (TranslationMock.messagePayload now options)
      = None).
Proof.
  unfold TranslationMock.messagePayload. cbv zeta. split.
  - intros [->| ->]; simpl; repeat split.
  - intros message Hen Hne He Hm.
    assert (G : truthy (TranslationMock.selectedLanguage options)
                && negb (str_eqb (TranslationMock.selectedLanguage options) (lit "en"))
                = true).
    { rewrite (proj2 (str_eqb_neq _ _) Hen).
      destruct (TranslationMock.selectedLanguage options);
        [contradiction | reflexivity]. }
    rewrite G, He. destruct message as [|c m]; [contradiction|].
    simpl. repeat split.
Qed.

Lemma mock_payload_precedence_witness :
  TranslationMock.payloadTranslationError
    (TranslationMock.messagePayload 0
       (TranslationMock.mkOptions (lit "ja") None
          (Some (lit "Konnichiwa"))
          (Some (lit "Mock translation to ja failed."))))
  = Some (lit "Mock translation to ja failed.").
Proof.
  refine (proj1 (proj2 (proj2 (mock_payload_precedence 0
    (TranslationMock.mkOptions (lit "ja") None
       (Some (lit "Konnichiwa"))
       (Some (lit "Mock translation to ja failed."))))
    (lit "Mock translation to ja failed.") _ _ eq_refl _))).
  - vm_compute. discriminate.
  - discriminate.
  - discriminate.
Defined.

(** ** The properties above at the inputs of the unit tests *)

Lemma stripHtmlTags_no_lt_witness :
  ~ In 60%N (SummarizeUrl.stripHtmlTags (lit "<p>1 < 2</p>")).
Proof. exact (stripHtmlTags_no_lt (lit "<p>1 < 2</p>")). Defined.

Lemma summarize_call_discipline_witness :
  snd (run (mockEnv (Resolved (htmlResponse (lit "<p>Some text</p>")))
                    (Rejected (ThrownError (lit "AI model error"))))
           (SummarizeUrl.execute mockValidUrl))
  = [CallFetch mockValidUrl]
  \/ exists prompt,
       snd (run (mockEnv (Resolved (htmlResponse (lit "<p>Some text</p>")))
                         (Rejected (ThrownError (lit "AI model error"))))
                (SummarizeUrl.execute mockValidUrl))
       = [CallFetch mockValidUrl; CallGenerateText prompt].
Proof.
  exact (summarize_call_discipline
    (mockEnv (Resolved (htmlResponse (lit "<p>Some text</p>")))
             (Rejected (ThrownError (lit "AI model error"))))
    mockValidUrl).
Defined.

Lemma summarize_model_called_iff_witness :
  modelNeverInvoked
    (snd (run (mockEnv (Resolved (htmlResponse (lit "<p>Some text</p>")))
                       (Resolved (GenString (lit "A summary."))))
              (SummarizeUrl.execute mockValidUrl)))
  = false.
Proof.
  refine (proj2 (summarize_model_called_iff
    (mockEnv (Resolved (htmlResponse (lit "<p>Some text</p>")))
             (Resolved (GenString (lit "A summary."))))
    mockValidUrl) _).
  exists (htmlResponse (lit "<p>Some text</p>")), (lit "<p>Some text</p>").
  repeat split; reflexivity.
Defined.

Lemma summarize_never_both_witness :
  exists response htmlContent finishReason,
    SummarizeUrl.fetchedPage
      (mockEnv (Resolved (htmlResponse (lit "<p>Some text</p>")))
               (Resolved (GenObject None None)))
      mockValidUrl response htmlContent /\
    blank (SummarizeUrl.stripHtmlTags htmlContent) = false /\
    generateText
      (mockEnv (Resolved (htmlResponse (lit "<p>Some text</p>")))
               (Resolved (GenObject None None)))
      (SummarizeUrl.summaryPrompt (SummarizeUrl.stripHtmlTags htmlContent))
    = Resolved (GenObject None finishReason).
Proof.
  exact (proj1 (proj2 (summarize_never_both
    (mockEnv (Resolved (htmlResponse (lit "<p>Some text</p>")))
             (Resolved (GenObject None None)))
    mockValidUrl)) eq_refl).
Defined.

Lemma translate_call_discipline_witness :
  snd (run (mockEnv (Rejected ThrownOther) (stopped (lit "Hola Mundo")))
           (TranslateText.execute asciiToLowerCase
              (TranslateText.mkArgs (lit "Hello world") (lit "es"))))
  = [CallGenerateText
       (lit "Translate the following text to es: " +++ [34%N]
        +++ lit "Hello world" +++ [34%N])].
Proof.
  exact (translate_call_discipline asciiToLowerCase
    (mockEnv (Rejected ThrownOther) (stopped (lit "Hola Mundo")))
    (TranslateText.mkArgs (lit "Hello world") (lit "es"))).
Defined.

Lemma translate_exactly_one_witness :
  (exists translated,
      fst (run (mockEnv (Rejected ThrownOther) (Resolved (GenString (lit "Hola"))))
               (TranslateText.execute asciiToLowerCase
                  (TranslateText.mkArgs (lit "Hello world") (lit "es"))))
      = {| TranslateText.translatedText := Some translated;
           TranslateText.error := None |})
  \/
  (exists message,
      message <> [] /\
      fst (run (mockEnv (Rejected ThrownOther) (Resolved (GenString (lit "Hola"))))
               (TranslateText.execute asciiToLowerCase
                  (TranslateText.mkArgs (lit "Hello world") (lit "es"))))
      = {| TranslateText.translatedText := None;
           TranslateText.error := Some message |}).
Proof.
  exact (translate_exactly_one asciiToLowerCase
    (mockEnv (Rejected ThrownOther) (Resolved (GenString (lit "Hola"))))
    (TranslateText.mkArgs (lit "Hello world") (lit "es"))).
Defined.

Lemma translate_schema_accepts_iff_witness :
  TranslateText.safeParse
    (TranslateText.mkRawInput (TranslateText.RawString (lit "Hello world"))
                              (TranslateText.RawString (lit "es")))
  = TranslateText.ParseSuccess (TranslateText.mkArgs (lit "Hello world") (lit "es")).
Proof.
  refine (proj2 (translate_schema_accepts_iff
    (TranslateText.mkRawInput (TranslateText.RawString (lit "Hello world"))
                              (TranslateText.RawString (lit "es")))
    (TranslateText.mkArgs (lit "Hello world") (lit "es"))) _).
  repeat split; simpl; lia.
Defined.
